(** * Authentication core of TaskManagment: cookie parsing, JWT issue and
    verification, the edge middleware and the login / register handlers.

    Strings are Stdlib [string] (ASCII characters); times are JavaScript
    millisecond timestamps as [Z]; a JavaScript exception is [None] (or an
    [Error] constructor) and a [try]/[catch] is a [match] on it. *)

From Stdlib Require Import String Ascii List ZArith Bool Lia.
Import ListNotations.
Open Scope string_scope.
Open Scope Z_scope.

(** ** JavaScript string primitives *)
Module JS.

(** [s.split(c)] for a one-character separator: never empty,
    ["".split(c) = [""]]. *)
Fixpoint split (c : ascii) (s : string) : list string :=
  match s with
  | EmptyString => [EmptyString]
  | String a r =>
      if Ascii.eqb a c then EmptyString :: split c r
      else match split c r with
           | [] => [String a EmptyString]
           | x :: xs => String a x :: xs
           end
  end.

(** The one-byte characters [String.prototype.trim] removes (a header
    value is a byte string): tab, LF, VT, FF, CR, space and the no-break
    space U+00A0. *)
Definition is_ws (c : ascii) : bool :=
  let n := nat_of_ascii c in
  ((9 <=? n) && (n <=? 13))%nat || (n =? 32)%nat || (n =? 160)%nat.

Fixpoint trim_start (s : string) : string :=
  match s with
  | EmptyString => EmptyString
  | String a r => if is_ws a then trim_start r else s
  end.

Fixpoint rev_str (s : string) : string :=
  match s with
  | EmptyString => EmptyString
  | String a r => rev_str r ++ String a EmptyString
  end.

(** [s.trim()]. *)
Definition trim (s : string) : string :=
  rev_str (trim_start (rev_str (trim_start s))).

(** [s.toLowerCase()] on ASCII. *)
Definition lower_char (c : ascii) : ascii :=
  let n := nat_of_ascii c in
  if ((65 <=? n) && (n <=? 90))%nat then ascii_of_nat (n + 32) else c.

Fixpoint toLowerCase (s : string) : string :=
  match s with
  | EmptyString => EmptyString
  | String a r => String (lower_char a) (toLowerCase r)
  end.

(** Truthiness of a [string | undefined]: [!token] is [true] for
    [undefined] and for the empty string. *)
Definition falsy (v : option string) : bool :=
  match v with
  | None => true
  | Some s => String.eqb s EmptyString
  end.

End JS.

(** ** The cookie-header parser of [getUserIdFromToken],
    [getUserIdFromTokenSync], [getToken] and [getUserFromToken]
<<
    const cookies = cookieHeader.split(';').reduce((acc, cookie) => {
      const [key, value] = cookie.trim().split('=');
      acc[key] = value;
      return acc;
    }, {} as Record<string, string>);
>>
    The accumulator object's own properties are an association list, most
    recent write first; a value is [undefined] ([None]) when the piece has
    no ['=']. *)
Module Cookies.

Definition Jar := list (string * option string).

(** [const [key, value] = cookie.trim().split('=')]: the first two
    elements of the split; the rest of the array is dropped. *)
Definition destructure_pair (cookie : string) : string * option string :=
  match JS.split "=" (JS.trim cookie) with
  | [] => ("undefined", None)
  | [k] => (k, None)
  | k :: v :: _ => (k, Some v)
  end.

(** [acc[key] = value; return acc]. On a plain object, [acc['__proto__']]
    is the prototype accessor, whose setter ignores a string or
    [undefined]: that write changes nothing. *)
Definition reducer (acc : Jar) (cookie : string) : Jar :=
  let '(k, v) := destructure_pair cookie in
  if String.eqb k "__proto__" then acc else (k, v) :: acc.

Definition parse (cookieHeader : string) : Jar :=
  fold_left reducer (JS.split ";" cookieHeader) [].

(** [cookies[k]] for a name [k] that [Object.prototype] does not have
    (such as ['auth-token']): the latest write to [k], [undefined] if
    none. *)
Fixpoint get (acc : Jar) (k : string) : option string :=
  match acc with
  | [] => None
  | (k', v) :: r => if String.eqb k' k then v else get r k
  end.

(** [cookies['auth-token']] read from a header. *)
Definition auth_token_of (cookieHeader : string) : option string :=
  get (parse cookieHeader) "auth-token".

End Cookies.

(** ** Session tokens

    [createToken] (src/lib/auth/jwt.ts) and the login route sign with
    [jsonwebtoken]; [getUserIdFromToken], [getToken] and the middleware
    verify with [jose]'s [jwtVerify]; [getUserIdFromTokenSync] verifies
    with [jsonwebtoken]. The two libraries are not part of the repository;
    they are modelled by their documented behaviour for HMAC-signed
    compact tokens [header.payload.signature]. The base64url/JSON
    encodings and the HMAC are the fields of a [Codec], whose laws are
    stated in [CodecLaws]. *)
Module Jwt.

(** [interface JwtPayload { userId: string; email: string; name?: string }] *)
Record Claims := mkClaims { userId : string; email : string; name : option string }.

(** A registered time claim ([iat], [nbf], [exp]) of a decoded payload:
    a JSON number, rounded up to a whole second, or a value of another
    JSON type. Both libraries compare these claims only with a whole
    second [n], and for such [n] [x <= n] iff [ceil x <= n]. *)
Inductive TimeClaim := Num (z : Z) | NotNum.

(** The decoded payload: the claims and the registered time claims. *)
Record Payload := mkPayload {
  claims : Claims; iat : option TimeClaim; exp : option TimeClaim; nbf : option TimeClaim }.

(** The decoded protected header: its [alg] (a value that is not a string
    reads as a name of no algorithm) and whether jose's [crit] processing
    accepts it ([validateCrit] knowing the one extension [b64], and the
    rule that a JWT must not use an unencoded payload); jsonwebtoken does
    not read [crit]. *)
Record Header := mkHeader { alg : string; crit_ok : bool }.

Record Codec := mkCodec {
  enc_header : string -> string;          (* base64url(JSON {alg, typ: "JWT"}) *)
  dec_header : string -> option Header;   (* JSON.parse(base64url-decode(h)) *)
  enc_payload : Payload -> string;        (* base64url(JSON payload) *)
  dec_payload : string -> option Payload;
  hmac : string -> string -> string -> string;  (* HMAC-SHA-<n>(key, input) bytes for alg HS<n> *)
  b64url_enc : string -> string;          (* canonical base64url of bytes *)
  b64url_dec : string -> option string    (* jose's base64url decoding *)
}.

(** The base64url alphabet [A-Za-z0-9-_]. *)
Definition b64url_char (c : ascii) : bool :=
  let n := nat_of_ascii c in
  ((65 <=? n) && (n <=? 90))%nat || ((97 <=? n) && (n <=? 122))%nat
  || ((48 <=? n) && (n <=? 57))%nat || (n =? 45)%nat || (n =? 95)%nat.

Fixpoint all_chars (p : ascii -> bool) (s : string) : bool :=
  match s with
  | EmptyString => true
  | String a r => p a && all_chars p r
  end.

(** The signature segment [jwt.sign] writes: base64url(HMAC-SHA256(key, input)). *)
Definition hs256 (K : Codec) (key input : string) : string :=
  b64url_enc K (hmac K "HS256" key input).

Record CodecLaws (K : Codec) : Prop := {
  header_roundtrip : forall a, dec_header K (enc_header K a) = Some (mkHeader a true);
  payload_roundtrip : forall p, dec_payload K (enc_payload K p) = Some p;
  header_alphabet : forall a, all_chars b64url_char (enc_header K a) = true;
  payload_alphabet : forall p, all_chars b64url_char (enc_payload K p) = true;
  sig_alphabet : forall b, all_chars b64url_char (b64url_enc K b) = true;
  b64url_roundtrip : forall b, b64url_dec K (b64url_enc K b) = Some b;
  sig_nonempty : forall a k m, b64url_enc K (hmac K a k m) <> EmptyString
}.

(** [Math.floor(Date.now() / 1000)] *)
Definition epoch (now_ms : Z) : Z := now_ms / 1000.

(** [ms('24h') / 1000] *)
Definition day_seconds : Z := 24 * 60 * 60.

(** [s] contains no character [c]. *)
Definition avoids (c : ascii) (s : string) : bool :=
  all_chars (fun a => negb (Ascii.eqb a c)) s.

(** Characters of a compact token: base64url or the ['.'] separator. *)
Definition tok_char (a : ascii) : bool := b64url_char a || Ascii.eqb a ".".

(** The payload [createToken] signs when called at [now_ms]. *)
Definition issued (c : Claims) (now_ms : Z) : Payload :=
  mkPayload c (Some (Num (epoch now_ms))) (Some (Num (epoch now_ms + day_seconds))) None.

(** The HMAC algorithms both verifiers accept for a secret given as a
    string or bytes when no [algorithms] option is passed. *)
Definition hmac_alg (a : string) : bool :=
  String.eqb a "HS256" || String.eqb a "HS384" || String.eqb a "HS512".

(** An optional time claim: absent, or a number passing [ok]; a value of
    another type is refused. *)
Definition time_ok (c : option TimeClaim) (ok : Z -> bool) : bool :=
  match c with
  | None => true
  | Some NotNum => false
  | Some (Num z) => ok z
  end.

Section Codec_ops.
Variable K : Codec.

(** [jwt.sign(payload, secret, { expiresIn: '24h', algorithm: 'HS256' })]:
    refuses a falsy secret, stamps [iat] with the current second and
    [exp = iat + 86400]. *)
Definition sign (secret : string) (now_ms : Z) (c : Claims) : option string :=
  if String.eqb secret EmptyString then None
  else
    let input := enc_header K "HS256" ++ "." ++ enc_payload K (issued c now_ms) in
    Some (input ++ "." ++ hs256 K secret input).

(** [createToken(user)] *)
Definition createToken (secret : string) (now_ms : Z)
    (id email : string) (name : option string) : option string :=
  sign secret now_ms (mkClaims id email name).

(** Compact-serialisation decoding shared by both libraries: three
    ['.']-separated segments, a decodable header and payload. Returns the
    header, the payload, the signing input and the signature segment. *)
Definition decode (token : string) : option (Header * Payload * string * string) :=
  match JS.split "." token with
  | [h; b; s] =>
      match dec_header K h, dec_payload K b with
      | Some hd, Some p => Some (hd, p, h ++ "." ++ b, s)
      | _, _ => None
      end
  | _ => None
  end.

(** [jsonwebtoken.verify(token, secret)]: a falsy secret is refused; the
    algorithm must be HS256, HS384 or HS512; an empty signature is refused
    (['jwt signature is required']); the signature segment must equal the
    base64url HMAC of the signing input under the header's algorithm;
    [nbf], when present, must be a number not after the current second,
    and [exp], when present, a number with [clockTimestamp < exp]. *)
Definition jwt_verify (secret : string) (now_ms : Z) (token : string) : option Payload :=
  if String.eqb secret EmptyString then None
  else match decode token with
  | Some (hd, p, input, s) =>
      let now := epoch now_ms in
      if negb (String.eqb s EmptyString) && hmac_alg (alg hd)
         && String.eqb (b64url_enc K (hmac K (alg hd) secret input)) s
         && time_ok (nbf p) (fun n => n <=? now) && time_ok (exp p) (fun e => now <? e)
      then Some p else None
  | None => None
  end.

(** jose's signature check: the signature segment is base64url-decoded
    and compared, as bytes, with the HMAC of the signing input. *)
Definition jose_mac_ok (a secret input s : string) : bool :=
  match b64url_dec K s with
  | Some bytes => String.eqb bytes (hmac K a secret input)
  | None => false
  end.

(** [jose.jwtVerify(token, new TextEncoder().encode(secret))]: the header
    must pass the [crit] processing and name HS256, HS384 or HS512; the
    signature must verify; [iat], when present, must be a number; [nbf],
    when present, a number not after the current second; [exp], when
    present, a number with [now < exp]. *)
Definition jose_verify (secret : string) (now_ms : Z) (token : string) : option Payload :=
  match decode token with
  | Some (hd, p, input, s) =>
      let now := epoch now_ms in
      if crit_ok hd && hmac_alg (alg hd) && jose_mac_ok (alg hd) secret input s
         && time_ok (iat p) (fun _ => true) && time_ok (nbf p) (fun n => n <=? now)
         && time_ok (exp p) (fun e => now <? e)
      then Some p else None
  | None => None
  end.

(** The common prologue of the extractors: [request.headers.get('cookie')],
    [if (!cookieHeader) return null], the parse and
    [if (!token) return null]. *)
Definition token_of_request (cookieHeader : option string) : option string :=
  if JS.falsy cookieHeader then None
  else match cookieHeader with
  | Some h => let t := Cookies.auth_token_of h in if JS.falsy t then None else t
  | None => None
  end.

(** [getUserIdFromToken(request)] (jose); the [catch] returns [null]. *)
Definition getUserIdFromToken (secret : string) (now_ms : Z) (cookieHeader : option string) : option string :=
  match token_of_request cookieHeader with
  | Some t => option_map (fun p => userId (claims p)) (jose_verify secret now_ms t)
  | None => None
  end.

(** [getUserIdFromTokenSync(request)] (jsonwebtoken). *)
Definition getUserIdFromTokenSync (secret : string) (now_ms : Z) (cookieHeader : option string) : option string :=
  match token_of_request cookieHeader with
  | Some t => option_map (fun p => userId (claims p)) (jwt_verify secret now_ms t)
  | None => None
  end.

(** [getToken(request)] (jose): the whole payload. *)
Definition getToken (secret : string) (now_ms : Z) (cookieHeader : option string) : option Payload :=
  match token_of_request cookieHeader with
  | Some t => jose_verify secret now_ms t
  | None => None
  end.

End Codec_ops.

End Jwt.

(** ** A concrete codec

    An executable instance of [Jwt.Codec] satisfying [Jwt.CodecLaws], used
    to evaluate the development at concrete tokens. Each byte becomes two
    letters [A..P] (its two nibbles), fields are separated by ['-'],
    integers are written in binary. The "MAC" is the algorithm, key and
    input behind a marker byte: only the laws matter here, not its
    cryptographic strength. *)
Module Toy.

Definition nib_hi (c : ascii) : ascii := ascii_of_nat (65 + nat_of_ascii c / 16).
Definition nib_lo (c : ascii) : ascii := ascii_of_nat (65 + nat_of_ascii c mod 16).

Fixpoint nib (s : string) : string :=
  match s with
  | EmptyString => EmptyString
  | String c r => String (nib_hi c) (String (nib_lo c) (nib r))
  end.

Definition unnib_char (h l : ascii) : option ascii :=
  let a := nat_of_ascii h in
  let b := nat_of_ascii l in
  if ((65 <=? a) && (a <? 81) && (65 <=? b) && (b <? 81))%nat
  then Some (ascii_of_nat ((a - 65) * 16 + (b - 65)))
  else None.

Fixpoint unnib (s : string) : option string :=
  match s with
  | EmptyString => Some EmptyString
  | String h (String l r) =>
      match unnib_char h l, unnib r with
      | Some c, Some r' => Some (String c r')
      | _, _ => None
      end
  | String _ EmptyString => None
  end.

Fixpoint pos_enc (p : positive) : string :=
  match p with
  | xH => EmptyString
  | xO q => String "0" (pos_enc q)
  | xI q => String "1" (pos_enc q)
  end.

Fixpoint pos_dec (s : string) : option positive :=
  match s with
  | EmptyString => Some xH
  | String c r =>
      if Ascii.eqb c "0" then option_map xO (pos_dec r)
      else if Ascii.eqb c "1" then option_map xI (pos_dec r)
      else None
  end.

Definition z_enc (z : Z) : string :=
  match z with
  | Z0 => "z"
  | Zpos p => String "p" (pos_enc p)
  | Zneg p => String "n" (pos_enc p)
  end.

Definition z_dec (s : string) : option Z :=
  match s with
  | String c r =>
      if Ascii.eqb c "z" then (if String.eqb r EmptyString then Some Z0 else None)
      else if Ascii.eqb c "p" then option_map Zpos (pos_dec r)
      else if Ascii.eqb c "n" then option_map Zneg (pos_dec r)
      else None
  | EmptyString => None
  end.

Definition opt_enc {A} (f : A -> string) (o : option A) : string :=
  match o with
  | None => "u"
  | Some a => String "s" (f a)
  end.

Definition opt_dec {A} (f : string -> option A) (s : string) : option (option A) :=
  match s with
  | String c r =>
      if Ascii.eqb c "u" then (if String.eqb r EmptyString then Some None else None)
      else if Ascii.eqb c "s" then option_map Some (f r)
      else None
  | EmptyString => None
  end.

Definition tc_enc (c : Jwt.TimeClaim) : string :=
  match c with
  | Jwt.Num z => z_enc z
  | Jwt.NotNum => "x"
  end.

Definition tc_dec (s : string) : option Jwt.TimeClaim :=
  if String.eqb s "x" then Some Jwt.NotNum else option_map Jwt.Num (z_dec s).

Definition payload_enc (p : Jwt.Payload) : string :=
  nib (Jwt.userId (Jwt.claims p)) ++ "-" ++ nib (Jwt.email (Jwt.claims p)) ++ "-"
  ++ opt_enc nib (Jwt.name (Jwt.claims p)) ++ "-" ++ opt_enc tc_enc (Jwt.iat p) ++ "-"
  ++ opt_enc tc_enc (Jwt.exp p) ++ "-" ++ opt_enc tc_enc (Jwt.nbf p).

Definition payload_dec (s : string) : option Jwt.Payload :=
  match JS.split "-" s with
  | [a; b; c; d; e; f] =>
      match unnib a, unnib b, opt_dec unnib c, opt_dec tc_dec d, opt_dec tc_dec e, opt_dec tc_dec f with
      | Some u, Some m, Some n, Some i, Some x, Some nb =>
          Some (Jwt.mkPayload (Jwt.mkClaims u m n) i x nb)
      | _, _, _, _, _, _ => None
      end
  | _ => None
  end.

Definition header_dec (s : string) : option Jwt.Header :=
  option_map (fun a => Jwt.mkHeader a true) (unnib s).

Definition codec : Jwt.Codec :=
  Jwt.mkCodec nib header_dec payload_enc payload_dec
    (fun a k m => "h" ++ a ++ k ++ m) nib unnib.

End Toy.

(** ** The edge middleware (middleware.ts) *)
Module Middleware.

Definition publicRoutes : list string :=
  ["/"; "/login"; "/register"; "/api/auth/login"; "/api/auth/register";
   "/api/auth/logout"; "/api/health"].

Definition protectedRoutes : list string :=
  ["/dashboard"; "/workspace"; "/project"; "/profile"; "/settings"].

(** [s.startsWith(pre)] *)
Definition startsWith (s pre : string) : bool := String.prefix pre s.

(** A [URL]: its pathname and its [searchParams], in insertion order. *)
Record Url := mkUrl { url_path : string; url_search : list (string * string) }.

(** [NextResponse.next()] with the headers set on it, or
    [NextResponse.redirect(url)] with the cookies it deletes. *)
Inductive Response :=
  | Next (headers : list (string * string))
  | Redirect (location : Url) (deleted_cookies : list string).

(** [publicRoutes.some(route => pathname === route || pathname.startsWith(route + '/'))] *)
Definition isPublicRoute (routes : list string) (pathname : string) : bool :=
  existsb (fun route => String.eqb pathname route || startsWith pathname (route ++ "/")) routes.

(** [protectedRoutes.some(route => pathname.startsWith(route))] *)
Definition isProtectedRoute (routes : list string) (pathname : string) : bool :=
  existsb (fun route => startsWith pathname route) routes.

(** [middleware(request)] over given route tables; [cookies] is
    [request.cookies.get(_)?.value] and [secret] is [process.env.JWT_SECRET]. *)
Definition middleware_with (publicR protectedR : list string) (K : Jwt.Codec)
    (secret : string) (now_ms : Z) (pathname : string)
    (cookies : string -> option string) : Response :=
  if isPublicRoute publicR pathname then Next []
  else if negb (isProtectedRoute protectedR pathname) then Next []
  else
    let no_token := Redirect (mkUrl "/login" [("redirect", pathname)]) [] in
    match cookies "auth-token" with
    | None => no_token
    | Some token =>
        if String.eqb token EmptyString then no_token
        else
          match Jwt.jose_verify K secret now_ms token with
          | Some payload =>
              Next [("x-user-id", Jwt.userId (Jwt.claims payload));
                    ("x-user-email", Jwt.email (Jwt.claims payload))]
          | None => Redirect (mkUrl "/login" []) ["auth-token"]
          end
    end.

Definition middleware := middleware_with publicRoutes protectedRoutes.

End Middleware.

(** ** The login and register route handlers (src/app/api/auth) *)
Module Api.

(** A JSON value; a number is an integer [JNum z] or a number that is
    not an integer, [JFrac n d] for [n / d] in lowest terms with
    [d > 1]. *)
#[warnings="-register-all"]
Inductive Json :=
  | JNull
  | JBool (b : bool)
  | JNum (z : Z)
  | JFrac (n : Z) (d : positive)
  | JStr (s : string)
  | JArr (l : list Json)
  | JObj (fields : list (string * Json)).

(** The options of [response.cookies.set(name, value, options)]. *)
Record CookieOpts := mkCookieOpts {
  httpOnly : bool; secure : bool; sameSite : string; maxAge : Z; path : string }.

Record SetCookie := mkSetCookie {
  sc_name : string; sc_value : string; sc_opts : CookieOpts }.

(** [NextResponse.json(body, { status })] and the cookies set on it. *)
Record Response := mkResponse {
  status : Z; body : Json; set_cookies : list SetCookie }.

(** The [AspNetUser] row (credential record). *)
Record AspNetUser := mkAspNetUser {
  a_id : string; a_userName : string; a_normalizedUserName : string;
  a_email : string; a_normalizedEmail : string;
  a_passwordHash : option string; a_securityStamp : option string;
  a_emailConfirmed : bool; a_twoFactorEnabled : bool;
  a_lockoutEnabled : bool; a_accessFailedCount : Z }.

(** The [User] row; [u_aspNetUser] is [include: { aspNetUser: true }]. *)
Record User := mkUser {
  u_id : string; u_email : string; u_name : option string;
  u_createdAt : string; u_aspNetUser : option AspNetUser }.

(** A zod issue, as serialised in [details: error.errors]. *)
Record Issue := mkIssue { i_path : string; i_message : string }.

(** Exceptions reaching the handlers' [catch]: a [z.ZodError] or any
    other error. *)
Inductive Exn := ZodError (issues : list Issue) | OtherError.

(** The handlers' [try] block: a computation that throws or returns. *)
Definition M (A : Type) : Type := (Exn + A)%type.
Definition ret {A} (a : A) : M A := inr a.
Definition throw {A} (e : Exn) : M A := inl e.
Definition bind {A B} (m : M A) (f : A -> M B) : M B :=
  match m with inl e => inl e | inr a => f a end.
Notation "x <- m ;; f" := (bind m (fun x => f)) (at level 61, m at next level, right associativity).
Definition of_option {A} (o : option A) : M A :=
  match o with Some a => ret a | None => throw OtherError end.

Definition field (k : string) (j : Json) : option Json :=
  match j with
  | JObj fs => match find (fun kv => String.eqb (fst kv) k) fs with
               | Some (_, v) => Some v
               | None => None
               end
  | _ => None
  end.

(** A [z.string()] field with its refinements ([.min], [.email]); zod
    runs every refinement and reports each failure. *)
Definition string_field (k : string) (checks : list (string -> option string)) (j : Json)
    : list Issue * option string :=
  match field k j with
  | Some (JStr s) =>
      (flat_map (fun chk => match chk s with Some m => [mkIssue k m] | None => [] end) checks, Some s)
  | Some _ => ([mkIssue k "Expected string"], None)
  | None => ([mkIssue k "Required"], None)
  end.

(** [.min(n, message)] *)
Definition min_len (n : nat) (message : string) (s : string) : option string :=
  if (n <=? String.length s)%nat then None else Some message.

(** [error.errors] as JSON, each issue by its [message] and [path]
    (zod's [code] and the fields that go with it are not kept). *)
Definition issues_json (is : list Issue) : Json :=
  JArr (map (fun i => JObj [("message", JStr (i_message i)); ("path", JArr [JStr (i_path i)])]) is).

(** [catch (error)] of both handlers. *)
Definition handle (e : Exn) : Response :=
  match e with
  | ZodError is =>
      mkResponse 400 (JObj [("error", JStr "Validation failed"); ("details", issues_json is)]) []
  | OtherError => mkResponse 500 (JObj [("error", JStr "Internal server error")]) []
  end.

Definition run (m : M Response) : Response :=
  match m with inl e => handle e | inr r => r end.

Definition name_json (n : option string) : Json :=
  match n with Some s => JStr s | None => JNull end.

(** [{ id, email, name, createdAt }] of a user row. *)
Definition user_json (u : User) : Json :=
  JObj [("id", JStr (u_id u)); ("email", JStr (u_email u));
        ("name", name_json (u_name u)); ("createdAt", JStr (u_createdAt u))].

(** A key [k] occurs somewhere in a JSON value. *)
Fixpoint has_key (k : string) (j : Json) : bool :=
  match j with
  | JArr l => existsb (has_key k) l
  | JObj fs => existsb (fun kv => String.eqb (fst kv) k || has_key k (snd kv)) fs
  | _ => false
  end.

Section Handlers.

(** The zod email check ([z.string().email(...)]). *)
Variable is_email : string -> bool.
(** [db.user.findUnique({ where: { email }, include: { aspNetUser: true } })] *)
Variable find_user : string -> M (option User).
(** [bcrypt.compare(password, hash)] *)
Variable bcrypt_compare : string -> string -> bool.
(** [bcrypt.hash(password, saltRounds)] and [bcrypt.genSaltSync(8)] *)
Variable bcrypt_hash : string -> Z -> M string.
Variable gen_salt : Z -> string.
(** [prisma.user.create({ data: { email, name } })] and
    [prisma.aspNetUser.create({ data })] inside the transaction. *)
Variable create_user : string -> string -> M User.
Variable create_aspNetUser : AspNetUser -> M AspNetUser.
Variable K : Jwt.Codec.
(** [process.env.JWT_SECRET], [process.env.NODE_ENV] and [Date.now()]. *)
Variable JWT_SECRET : string.
Variable NODE_ENV : string.
Variable now_ms : Z.

Definition email_check (s : string) : option string :=
  if is_email s then None else Some "Invalid email address".

(** [loginSchema.parse(body)] *)
Definition loginSchema_parse (body : Json) : M (string * string) :=
  match body with
  | JObj _ =>
      let '(i1, e) := string_field "email" [email_check] body in
      let '(i2, p) := string_field "password" [min_len 1 "Password is required"] body in
      match (i1 ++ i2)%list, e, p with
      | [], Some e, Some p => ret (e, p)
      | is, _, _ => throw (ZodError is)
      end
  | _ => throw (ZodError [mkIssue "" "Expected object"])
  end.

Definition invalid_credentials : Response :=
  mkResponse 401 (JObj [("error", JStr "Invalid email or password")]) [].

(** [POST /api/auth/login]; [body] is [await request.json()], [None]
    when the body is not JSON. *)
Definition login_POST (body : option Json) : Response :=
  run (
    b <- of_option body ;;
    ep <- loginSchema_parse b ;;
    let '(email, password) := ep in
    found <- find_user (JS.toLowerCase email) ;;
    match found with
    | None => ret invalid_credentials
    | Some user =>
        match u_aspNetUser user with
        | None => ret invalid_credentials
        | Some a =>
            let isPasswordValid := bcrypt_compare password
                (match a_passwordHash a with Some h => h | None => EmptyString end) in
            if negb isPasswordValid then ret invalid_credentials
            else
              token <- of_option (Jwt.sign K JWT_SECRET now_ms
                         (Jwt.mkClaims (u_id user) (u_email user) (u_name user))) ;;
              ret (mkResponse 200
                     (JObj [("message", JStr "Login successful"); ("user", user_json user)])
                     [mkSetCookie "auth-token" token
                        (mkCookieOpts true (String.eqb NODE_ENV "production") "strict"
                           (24 * 60 * 60) "/")])
        end
    end).

(** [registerSchema.parse(body)] *)
Definition registerSchema_parse (body : Json) : M (string * string * string) :=
  match body with
  | JObj _ =>
      let '(i1, f) := string_field "fullName" [min_len 2 "Full name must be at least 2 characters"] body in
      let '(i2, e) := string_field "email" [email_check] body in
      let '(i3, p) := string_field "password" [min_len 6 "Password must be at least 6 characters"] body in
      match (i1 ++ i2 ++ i3)%list, f, e, p with
      | [], Some f, Some e, Some p => ret (f, e, p)
      | is, _, _, _ => throw (ZodError is)
      end
  | _ => throw (ZodError [mkIssue "" "Expected object"])
  end.

Fixpoint toUpperCase (s : string) : string :=
  match s with
  | EmptyString => EmptyString
  | String a r =>
      let n := nat_of_ascii a in
      String (if ((97 <=? n) && (n <=? 122))%nat then ascii_of_nat (n - 32) else a) (toUpperCase r)
  end.

(** [POST /api/auth/register] *)
Definition register_POST (body : option Json) : Response :=
  run (
    b <- of_option body ;;
    fep <- registerSchema_parse b ;;
    let '(fullName, email, password) := fep in
    existing <- find_user (JS.toLowerCase email) ;;
    match existing with
    | Some _ =>
        ret (mkResponse 409 (JObj [("error", JStr "User with this email already exists")]) [])
    | None =>
        passwordHash <- bcrypt_hash password 12 ;;
        let securityStamp := gen_salt 8 in
        user <- create_user (JS.toLowerCase email) fullName ;;
        aspNetUser <- create_aspNetUser
          (mkAspNetUser (u_id user) (JS.toLowerCase email) (toUpperCase email)
             (JS.toLowerCase email) (toUpperCase email) (Some passwordHash)
             (Some securityStamp) false false true 0) ;;
        ret (mkResponse 201
               (JObj [("message", JStr "User registered successfully"); ("user", user_json user)])
               [])
    end).

End Handlers.

End Api.

(** ** A concrete deployment

    Concrete collaborators for the handlers: one registered user, a
    bcrypt stand-in that "hashes" by prefixing, the concrete codec, a
    production environment and the clock at [0]. *)
Module Demo.
Import Api.

Definition alice_credentials : AspNetUser :=
  mkAspNetUser "u1" "alice@example.com" "ALICE@EXAMPLE.COM" "alice@example.com"
    "ALICE@EXAMPLE.COM" (Some "hash:pw123456") (Some "stamp") false false true 0.

Definition alice : User :=
  mkUser "u1" "alice@example.com" (Some "Alice") "2026-01-01T00:00:00.000Z"
    (Some alice_credentials).

Definition is_email (s : string) : bool :=
  match String.index 0 "@" s with Some _ => true | None => false end.

Definition find_user (email : string) : M (option User) :=
  ret (if String.eqb email "alice@example.com" then Some alice else None).

Definition bcrypt_compare (password hash : string) : bool :=
  String.eqb hash ("hash:" ++ password).

Definition bcrypt_hash (password : string) (_ : Z) : M string := ret ("hash:" ++ password).

Definition gen_salt (_ : Z) : string := "salt".

Definition create_user (email name : string) : M User :=
  ret (mkUser "u2" email (Some name) "2026-01-02T00:00:00.000Z" None).

Definition create_aspNetUser (a : AspNetUser) : M AspNetUser := ret a.

Definition login := login_POST is_email find_user bcrypt_compare Toy.codec "k3y" "production" 0.

Definition register :=
  register_POST is_email find_user bcrypt_hash gen_salt create_user create_aspNetUser.

Definition login_body (email password : string) : Json :=
  JObj [("email", JStr email); ("password", JStr password)].

End Demo.

(** ** Cookie headers as browsers send them

    [name=value] pairs joined by ["; "], used to state what the parser of
    the extractors reads from a header. *)
Module CookieHeader.

Definition pair_str (kv : string * string) : string := fst kv ++ "=" ++ snd kv.

Fixpoint cookie_header (first : string * string) (rest : list (string * string)) : string :=
  match rest with
  | [] => pair_str first
  | kv :: r => pair_str first ++ "; " ++ cookie_header kv r
  end.

(** A cookie name or value with no [';'], no ['='] and no white space. *)
Definition cookie_token (s : string) : bool :=
  Jwt.all_chars (fun c => negb (Ascii.eqb c ";") && negb (Ascii.eqb c "=") && negb (JS.is_ws c)) s.

(** Every name and value of the pairs is a [cookie_token]. *)
Definition well_formed (l : list (string * string)) : Prop :=
  Forall (fun kv => cookie_token (fst kv) = true /\ cookie_token (snd kv) = true) l.

(** The value of the last pair named [k]. *)
Definition last_value (l : list (string * string)) (k : string) : option string :=
  option_map snd (find (fun kv => String.eqb (fst kv) k) (rev l)).

End CookieHeader.

(** ** The middleware's [config.matcher] (middleware.ts)
<<
    matcher: ['/( (?!api|_next/static|_next/image|favicon.ico) .* )']
>>
    (spaces added inside the group). The pattern is matched against the whole pathname: a ['/'], then a
    rest that does not begin with one of the four alternatives, and [.*].
    In a JavaScript regular expression ['.'] (in [favicon.ico] as in [.*])
    matches any character but a line terminator (LF, CR). *)
Module EdgeConfig.

Definition line_char (c : ascii) : bool :=
  negb (Ascii.eqb c "010") && negb (Ascii.eqb c "013").

(** The alternative [pat] matches at the start of [s]. *)
Fixpoint pat_prefix (pat s : string) : bool :=
  match pat, s with
  | EmptyString, _ => true
  | String p pr, String c sr =>
      (if Ascii.eqb p "." then line_char c else Ascii.eqb p c) && pat_prefix pr sr
  | String _ _, EmptyString => false
  end.

Definition excluded : list string := ["api"; "_next/static"; "_next/image"; "favicon.ico"].

Definition matches (pathname : string) : bool :=
  match pathname with
  | String c rest =>
      Ascii.eqb c "/" && negb (existsb (fun alt => pat_prefix alt rest) excluded)
      && Jwt.all_chars line_char rest
  | EmptyString => false
  end.

(** A request at the edge: Next.js runs [middleware] on matched paths
    only; any other request goes on to its route unchanged. *)
Definition edge (K : Jwt.Codec) (secret : string) (now_ms : Z) (pathname : string)
    (cookies : string -> option string) : Middleware.Response :=
  if matches pathname then Middleware.middleware K secret now_ms pathname cookies
  else Middleware.Next [].

End EdgeConfig.

(** ** Route handlers that call the session extractors *)
Module Routes.
Import Api.

(** [NextResponse.json({ error: message }, { status: code })] *)
Definition json_error (code : Z) (message : string) : Response :=
  mkResponse code (JObj [("error", JStr message)]) [].

(** The [catch] of a handler that answers every exception with 500. *)
Definition run500 (m : M Response) : Response :=
  match m with inl _ => json_error 500 "Internal server error" | inr r => r end.

(** The object [jwtVerify] returns as [payload] for a token this
    application signs ([createToken] or the login route): the claims
    [userId], [email] and [name] ([JSON.stringify] drops an undefined
    [name]) and the registered claims [iat], [exp] and [nbf] that are
    present (a value of another type than number is shown as [null]). *)
Definition time_field (k : string) (c : option Jwt.TimeClaim) : list (string * Json) :=
  match c with
  | Some (Jwt.Num z) => [(k, JNum z)]
  | Some Jwt.NotNum => [(k, JNull)]
  | None => []
  end.

Definition payload_object (p : Jwt.Payload) : Json :=
  JObj ([("userId", JStr (Jwt.userId (Jwt.claims p))); ("email", JStr (Jwt.email (Jwt.claims p)))]
        ++ match Jwt.name (Jwt.claims p) with Some n => [("name", JStr n)] | None => [] end
        ++ time_field "iat" (Jwt.iat p) ++ time_field "exp" (Jwt.exp p)
        ++ time_field "nbf" (Jwt.nbf p))%list.

(** [token.sub] as a Prisma [where] value: a string, or [undefined]. *)
Definition sub (p : Jwt.Payload) : option string :=
  match field "sub" (payload_object p) with
  | Some (JStr s) => Some s
  | _ => None
  end.

Section Handlers.
Variable K : Jwt.Codec.
(** [process.env.JWT_SECRET] and [Date.now()]. *)
Variable JWT_SECRET : string.
Variable now_ms : Z.

(** [db.user.findUnique({ where: { id: userId },
    select: { id, email, name, createdAt, updatedAt } })], the key [None]
    standing for [id: undefined]. *)
Variable find_user_by_id : option string -> M (option Json).

(** [GET /api/auth/verify] (src/app/api/auth/verify/route.ts). *)
Definition verify_GET (cookieHeader : option string) : Response :=
  run500 (
    match Jwt.getToken K JWT_SECRET now_ms cookieHeader with
    | None => ret (json_error 401 "Unauthorized")
    | Some token =>
        let userId := sub token in
        user <- find_user_by_id userId ;;
        match user with
        | None => ret (json_error 404 "User not found")
        | Some u => ret (mkResponse 200 (JObj [("user", u)]) [])
        end
    end).

(** [db.task.findUnique({ where: { id: taskId }, include: { project:
    { include: { userProjects: { where: { userId } } } } } })]: the
    [task.project.userProjects] of the task, [None] when there is no task. *)
Variable find_task_userProjects : string -> option string -> M (option (list Json)).
(** [db.comment.findMany({ where: { taskId }, include: { user: ... },
    orderBy: { createdAt: 'asc' } })] *)
Variable find_comments : string -> M Json.

(** [GET /api/tasks/[taskId]/comments]
    (src/app/api/tasks/[taskId]/comments/route.ts). *)
Definition comments_GET (cookieHeader : option string) (taskId : string) : Response :=
  run500 (
    match Jwt.getToken K JWT_SECRET now_ms cookieHeader with
    | None => ret (json_error 401 "Unauthorized")
    | Some token =>
        let userId := sub token in
        task <- find_task_userProjects taskId userId ;;
        match task with
        | None => ret (json_error 404 "Task not found")
        | Some userProjects =>
            if (length userProjects =? 0)%nat
            then ret (json_error 403 "Access denied to this task")
            else (comments <- find_comments taskId ;; ret (mkResponse 200 comments []))
        end
    end).

(** [commentSchema.parse(body)] with
    [commentSchema = z.object({ body: z.string().min(1, 'Comment body is required') })]. *)
Definition commentSchema_parse (body : Json) : M string :=
  match body with
  | JObj _ =>
      let '(is, b) := string_field "body" [min_len 1 "Comment body is required"] body in
      match is, b with
      | [], Some b => ret b
      | is, _ => throw (ZodError is)
      end
  | _ => throw (ZodError [mkIssue "" "Expected object"])
  end.

(** The [catch (error)] of the comments [POST]: a [z.ZodError] gives 400
    with ['Validation error'] and [error.errors], anything else 500. *)
Definition comment_catch (m : M Response) : Response :=
  match m with
  | inl (ZodError is) =>
      mkResponse 400 (JObj [("error", JStr "Validation error"); ("details", issues_json is)]) []
  | inl OtherError => json_error 500 "Internal server error"
  | inr r => r
  end.

(** [db.comment.create({ data: { taskId, userId, body }, include: { user:
    { select: { id, name, email } } } })], the user id [None] standing for
    [userId: undefined]. *)
Variable create_comment : string -> option string -> string -> M Json.

(** [POST /api/tasks/[taskId]/comments]
    (src/app/api/tasks/[taskId]/comments/route.ts); the body is [None]
    when [request.json()] rejects. *)
Definition comments_POST (cookieHeader : option string) (taskId : string) (body : option Json)
    : Response :=
  comment_catch (
    match Jwt.getToken K JWT_SECRET now_ms cookieHeader with
    | None => ret (json_error 401 "Unauthorized")
    | Some token =>
        let userId := sub token in
        task <- find_task_userProjects taskId userId ;;
        match task with
        | None => ret (json_error 404 "Task not found")
        | Some userProjects =>
            if (length userProjects =? 0)%nat
            then ret (json_error 403 "Access denied to this task")
            else (b <- of_option body ;;
                  validatedData <- commentSchema_parse b ;;
                  comment <- create_comment taskId userId validatedData ;;
                  ret (mkResponse 201 comment []))
        end
    end).

(** [GET /api/workspaces/[workspaceId]/users]
    (src/app/api/workspaces/[workspaceId]/users/route.ts). After the
    guard the handler awaits [params] and builds
    [where: { userId, workSpaceId }]: no binding [workSpaceId] exists in
    the module (the destructured parameter is [workspaceId]), so reading
    it throws a [ReferenceError], which the [catch] answers with 500; the
    statements after it are never reached. *)
Definition workspace_users_GET (cookieHeader : option string) (workspaceId : string) : Response :=
  run500 (
    let userId := Jwt.getUserIdFromTokenSync K JWT_SECRET now_ms cookieHeader in
    if JS.falsy userId then ret (json_error 401 "Unauthorized")
    else throw OtherError).

(** [db.task.findUnique({ where: { id: taskId }, include: { workSpace:
    { include: { workSpaceUsers: { where: { userId, isActive: true } } } } } })]:
    the [task.workSpace.workSpaceUsers] of the task, [None] when there is
    no task. *)
Variable find_task_workSpaceUsers : string -> string -> M (option (list Json)).

(** [checkTaskAccess(userId, taskId)]:
    [task && task.workSpace.workSpaceUsers.length > 0]. *)
Definition checkTaskAccess (userId taskId : string) : M bool :=
  task <- find_task_workSpaceUsers taskId userId ;;
  ret (match task with
       | None => false
       | Some workSpaceUsers => (0 <? length workSpaceUsers)%nat
       end).

(** [updateTaskStatusSchema.parse(body)] for
    [z.object({ status: z.number().int().min(0).max(2) })]: on a number
    zod runs the three checks in order and reports each failure; an
    integer passes [.int()], and a non-integer [n / d] is below 0 exactly
    when [n < 0] and above 2 exactly when [n > 2 * d]. *)
Definition updateTaskStatusSchema_parse (body : Json) : M Z :=
  match body with
  | JObj _ =>
      match field "status" body with
      | Some (JNum s) =>
          if s <? 0 then throw (ZodError [mkIssue "status" "Number must be greater than or equal to 0"])
          else if 2 <? s then throw (ZodError [mkIssue "status" "Number must be less than or equal to 2"])
          else ret s
      | Some (JFrac n d) =>
          throw (ZodError ([mkIssue "status" "Expected integer, received float"]
            ++ (if n <? 0 then [mkIssue "status" "Number must be greater than or equal to 0"] else [])
            ++ (if 2 * Zpos d <? n then [mkIssue "status" "Number must be less than or equal to 2"]
                else []))%list)
      | Some _ => throw (ZodError [mkIssue "status" "Expected number"])
      | None => throw (ZodError [mkIssue "status" "Required"])
      end
  | _ => throw (ZodError [mkIssue "" "Expected object"])
  end.

(** [db.task.update({ where: { id: taskId }, data: { status,
    lastEditedById: userId, lastEditedDate: new Date() }, include: ... })] *)
Variable update_task : string -> Z -> string -> Z -> M Json.

(** [PATCH /api/tasks/[taskId]] (the second module of
    src/app/api/tasks/[taskId]/comments/route.ts); [body] is
    [await request.json()], [None] when it is not JSON. *)
Definition task_status_PATCH (cookieHeader : option string) (taskId : string)
    (body : option Json) : Response :=
  run (
    let userId := Jwt.getUserIdFromTokenSync K JWT_SECRET now_ms cookieHeader in
    match userId with
    | Some userId =>
        if String.eqb userId EmptyString then ret (json_error 401 "Unauthorized")
        else
          (hasAccess <- checkTaskAccess userId taskId ;;
           if negb hasAccess then ret (json_error 403 "Access denied to this task")
           else
             (b <- of_option body ;;
              validatedData <- updateTaskStatusSchema_parse b ;;
              updatedTask <- update_task taskId validatedData userId now_ms ;;
              ret (mkResponse 200 updatedTask [])))
    | None => ret (json_error 401 "Unauthorized")
    end).

End Handlers.

End Routes.

(** ** The session context ([AuthProvider], src/middleware.ts after the
    matcher [config]) *)
Module Session.
Import Api.

(** The provider's state: [user] ([null] is [None]) and [isLoading]. *)
Record State := mkState { user : option Json; isLoading : bool }.

(** [useState<User | null>(null)] and [useState(true)]. *)
Definition initial : State := mkState None true.

(** JavaScript truthiness of a JSON value. *)
Definition truthy (j : Json) : bool :=
  match j with
  | JNull => false
  | JBool b => b
  | JNum z => negb (z =? 0)
  | JFrac _ _ => true
  | JStr s => negb (String.eqb s EmptyString)
  | JArr _ | JObj _ => true
  end.

(** [await axios.get(url)]: the parsed body of a 2xx answer; any other
    status, or no answer at all, rejects ([None]). *)
Definition axios_get (r : option Response) : option Json :=
  match r with
  | Some r => if (200 <=? status r) && (status r <? 300) then Some (body r) else None
  | None => None
  end.

(** [verifySession()] of the mount effect, [r] being the answer to
    [GET /api/auth/verify]: [setUser(response.data.user)] when it is
    truthy, [setUser(null)] otherwise and in the [catch] (a [data] that is
    not an object has no [user]; reading [user] of [null] throws), then
    [setIsLoading(false)] in the [finally]. *)
Definition verifySession (r : option Response) (s : State) : State :=
  let u :=
    match axios_get r with
    | Some data =>
        match field "user" data with
        | Some v => if truthy v then Some v else None
        | None => None
        end
    | None => None
    end in
  mkState u false.

(** The provider mounted in a browser sending [cookieHeader]: the
    verification request is served by [Routes.verify_GET] (the middleware
    does not run on [/api] paths). *)
Definition mount (K : Jwt.Codec) (JWT_SECRET : string) (now_ms : Z)
    (find_user_by_id : option string -> M (option Json)) (cookieHeader : option string) : State :=
  verifySession (Some (Routes.verify_GET K JWT_SECRET now_ms find_user_by_id cookieHeader)) initial.

End Session.

(** * Proofs *)

(** ** Lemmas on the string primitives *)
Module StringFacts.

Lemma all_chars_app p x y :
  Jwt.all_chars p (x ++ y) = Jwt.all_chars p x && Jwt.all_chars p y.
Proof.
  induction x as [|a x IH]; simpl; [reflexivity|].
  rewrite IH, andb_assoc; reflexivity.
Qed.

Lemma all_chars_impl (p q : ascii -> bool) s :
  (forall a, p a = true -> q a = true) ->
  Jwt.all_chars p s = true -> Jwt.all_chars q s = true.
Proof.
  intros Hpq; induction s as [|a s IH]; simpl; [reflexivity|].
  intros H; apply andb_prop in H as [H1 H2].
  rewrite (Hpq a H1), (IH H2); reflexivity.
Qed.

Lemma split_avoid c x :
  Jwt.avoids c x = true -> JS.split c x = [x].
Proof.
  induction x as [|a x IH]; simpl; [reflexivity|].
  intros H; apply andb_prop in H as [H1 H2].
  apply negb_true_iff in H1; rewrite H1, (IH H2); reflexivity.
Qed.

Lemma split_app_sep c x y :
  Jwt.avoids c x = true -> JS.split c (x ++ String c y) = x :: JS.split c y.
Proof.
  induction x as [|a x IH]; simpl.
  - intros _; rewrite Ascii.eqb_refl; reflexivity.
  - intros H; apply andb_prop in H as [H1 H2].
    apply negb_true_iff in H1; rewrite H1, (IH H2); reflexivity.
Qed.

Lemma trim_start_no_ws s :
  Jwt.all_chars (fun a => negb (JS.is_ws a)) s = true -> JS.trim_start s = s.
Proof.
  destruct s as [|a s]; simpl; [reflexivity|].
  intros H; apply andb_prop in H as [H1 _].
  apply negb_true_iff in H1; rewrite H1; reflexivity.
Qed.

Lemma app_empty_r s : s ++ EmptyString = s.
Proof. induction s as [|a s IH]; simpl; [reflexivity|]; rewrite IH; reflexivity. Qed.

Lemma app_assoc x y z : x ++ (y ++ z) = (x ++ y) ++ z.
Proof. induction x as [|a x IH]; simpl; [reflexivity|]; rewrite IH; reflexivity. Qed.

Lemma rev_str_app x y : JS.rev_str (x ++ y) = JS.rev_str y ++ JS.rev_str x.
Proof.
  induction x as [|a x IH]; simpl.
  - rewrite app_empty_r; reflexivity.
  - rewrite IH, app_assoc; reflexivity.
Qed.

Lemma rev_str_involutive s : JS.rev_str (JS.rev_str s) = s.
Proof.
  induction s as [|a s IH]; simpl; [reflexivity|].
  rewrite rev_str_app, IH; reflexivity.
Qed.

Lemma all_chars_rev p s : Jwt.all_chars p (JS.rev_str s) = Jwt.all_chars p s.
Proof.
  induction s as [|a s IH]; simpl; [reflexivity|].
  rewrite all_chars_app, IH; simpl.
  rewrite andb_true_r, andb_comm; reflexivity.
Qed.

Lemma trim_no_ws s :
  Jwt.all_chars (fun a => negb (JS.is_ws a)) s = true -> JS.trim s = s.
Proof.
  intros H; unfold JS.trim.
  rewrite (trim_start_no_ws s H), trim_start_no_ws.
  - apply rev_str_involutive.
  - rewrite all_chars_rev; exact H.
Qed.

End StringFacts.

(** ** The concrete codec satisfies the codec laws *)
Module ToyFacts.
Import StringFacts.

Lemma unnib_char_nib c : Toy.unnib_char (Toy.nib_hi c) (Toy.nib_lo c) = Some c.
Proof.
  destruct c as [b0 b1 b2 b3 b4 b5 b6 b7].
  destruct b0, b1, b2, b3, b4, b5, b6, b7; vm_compute; reflexivity.
Qed.

Lemma unnib_cons h l r :
  Toy.unnib (String h (String l r)) =
  match Toy.unnib_char h l, Toy.unnib r with
  | Some c, Some r' => Some (String c r')
  | _, _ => None
  end.
Proof. reflexivity. Qed.

Lemma unnib_nib s : Toy.unnib (Toy.nib s) = Some s.
Proof.
  induction s as [|c s IH]; [reflexivity|].
  change (Toy.nib (String c s)) with (String (Toy.nib_hi c) (String (Toy.nib_lo c) (Toy.nib s))).
  rewrite unnib_cons, unnib_char_nib, IH; reflexivity.
Qed.

Lemma nib_chars c :
  Jwt.b64url_char (Toy.nib_hi c) = true /\ Jwt.b64url_char (Toy.nib_lo c) = true.
Proof.
  destruct c as [b0 b1 b2 b3 b4 b5 b6 b7].
  destruct b0, b1, b2, b3, b4, b5, b6, b7; vm_compute; split; reflexivity.
Qed.

Lemma nib_alphabet s : Jwt.all_chars Jwt.b64url_char (Toy.nib s) = true.
Proof.
  induction s as [|c s IH]; [reflexivity|]; cbn [Toy.nib Jwt.all_chars].
  destruct (nib_chars c) as [H1 H2]; rewrite H1, H2, IH; reflexivity.
Qed.

Lemma pos_roundtrip p : Toy.pos_dec (Toy.pos_enc p) = Some p.
Proof. induction p as [p IH|p IH|]; simpl; try rewrite IH; reflexivity. Qed.

Lemma pos_alphabet p : Jwt.all_chars Jwt.b64url_char (Toy.pos_enc p) = true.
Proof. induction p as [p IH|p IH|]; simpl; try rewrite IH; reflexivity. Qed.

Lemma z_roundtrip z : Toy.z_dec (Toy.z_enc z) = Some z.
Proof. destruct z as [|p|p]; simpl; try rewrite pos_roundtrip; reflexivity. Qed.

Lemma z_alphabet z : Jwt.all_chars Jwt.b64url_char (Toy.z_enc z) = true.
Proof. destruct z as [|p|p]; simpl; try rewrite pos_alphabet; reflexivity. Qed.

Lemma opt_roundtrip {A} (f : A -> string) g o :
  (forall a, g (f a) = Some a) -> Toy.opt_dec g (Toy.opt_enc f o) = Some o.
Proof. intros H; destruct o as [a|]; simpl; [rewrite H|]; reflexivity. Qed.

Lemma opt_alphabet {A} (f : A -> string) o :
  (forall a, Jwt.all_chars Jwt.b64url_char (f a) = true) ->
  Jwt.all_chars Jwt.b64url_char (Toy.opt_enc f o) = true.
Proof. intros H; destruct o as [a|]; simpl; [rewrite H|]; reflexivity. Qed.

(** Every field encoding of the concrete codec avoids ['-']. *)
Lemma nib_avoids s : Jwt.avoids "-" (Toy.nib s) = true.
Proof.
  induction s as [|c s IH]; [reflexivity|].
  unfold Jwt.avoids in *; cbn [Toy.nib Jwt.all_chars]; rewrite IH.
  destruct c as [b0 b1 b2 b3 b4 b5 b6 b7].
  destruct b0, b1, b2, b3, b4, b5, b6, b7; vm_compute; reflexivity.
Qed.

Lemma pos_avoids p : Jwt.avoids "-" (Toy.pos_enc p) = true.
Proof. induction p as [p IH|p IH|]; simpl; try exact IH; reflexivity. Qed.

Lemma z_avoids z : Jwt.avoids "-" (Toy.z_enc z) = true.
Proof. destruct z as [|p|p]; simpl; [reflexivity| |]; apply pos_avoids. Qed.

Lemma opt_avoids {A} (f : A -> string) o :
  (forall a, Jwt.avoids "-" (f a) = true) -> Jwt.avoids "-" (Toy.opt_enc f o) = true.
Proof. intros H; destruct o as [a|]; simpl; [apply H|reflexivity]. Qed.

Lemma tc_roundtrip c : Toy.tc_dec (Toy.tc_enc c) = Some c.
Proof.
  destruct c as [z|]; [|reflexivity].
  unfold Toy.tc_dec; simpl; rewrite z_roundtrip.
  destruct z as [|q|q]; reflexivity.
Qed.

Lemma tc_alphabet c : Jwt.all_chars Jwt.b64url_char (Toy.tc_enc c) = true.
Proof. destruct c; [apply z_alphabet|reflexivity]. Qed.

Lemma tc_avoids c : Jwt.avoids "-" (Toy.tc_enc c) = true.
Proof. destruct c; [apply z_avoids|reflexivity]. Qed.

Lemma payload_roundtrip p : Toy.payload_dec (Toy.payload_enc p) = Some p.
Proof.
  destruct p as [[u m n] i x nb]; unfold Toy.payload_dec, Toy.payload_enc; simpl.
  rewrite (split_app_sep _ _ _ (nib_avoids u)),
          (split_app_sep _ _ _ (nib_avoids m)),
          (split_app_sep _ _ _ (opt_avoids _ n nib_avoids)),
          (split_app_sep _ _ _ (opt_avoids _ i tc_avoids)),
          (split_app_sep _ _ _ (opt_avoids _ x tc_avoids)),
          (split_avoid _ _ (opt_avoids _ nb tc_avoids)).
  rewrite !unnib_nib, (opt_roundtrip _ _ n unnib_nib), !(opt_roundtrip _ _ _ tc_roundtrip).
  reflexivity.
Qed.

Lemma payload_alphabet p : Jwt.all_chars Jwt.b64url_char (Toy.payload_enc p) = true.
Proof.
  unfold Toy.payload_enc; rewrite !all_chars_app; simpl.
  rewrite !nib_alphabet, (opt_alphabet _ _ nib_alphabet), !(opt_alphabet _ _ tc_alphabet).
  reflexivity.
Qed.

Lemma codec_laws : Jwt.CodecLaws Toy.codec.
Proof.
  constructor; simpl.
  - intros a; unfold Toy.header_dec; rewrite unnib_nib; reflexivity.
  - apply payload_roundtrip.
  - apply nib_alphabet.
  - apply payload_alphabet.
  - apply nib_alphabet.
  - apply unnib_nib.
  - intros a k m; discriminate.
Qed.

End ToyFacts.

(** ** Issuing and verifying tokens *)
Module JwtFacts.
Import StringFacts.

Lemma tok_char_facts a :
  Jwt.tok_char a = true ->
  negb (Ascii.eqb a ";") = true /\ negb (Ascii.eqb a "=") = true /\ negb (JS.is_ws a) = true.
Proof.
  destruct a as [b0 b1 b2 b3 b4 b5 b6 b7].
  destruct b0, b1, b2, b3, b4, b5, b6, b7; vm_compute; try discriminate; auto.
Qed.

Lemma b64url_not_dot a : Jwt.b64url_char a = true -> negb (Ascii.eqb a ".") = true.
Proof.
  destruct a as [b0 b1 b2 b3 b4 b5 b6 b7].
  destruct b0, b1, b2, b3, b4, b5, b6, b7; vm_compute; try discriminate; auto.
Qed.

Lemma b64url_avoids_dot s : Jwt.all_chars Jwt.b64url_char s = true -> Jwt.avoids "." s = true.
Proof. apply all_chars_impl, b64url_not_dot. Qed.

Lemma b64url_tok s : Jwt.all_chars Jwt.b64url_char s = true -> Jwt.all_chars Jwt.tok_char s = true.
Proof. apply all_chars_impl; intros a H; unfold Jwt.tok_char; rewrite H; reflexivity. Qed.

Lemma parse_single h : Jwt.avoids ";" h = true -> Cookies.parse h = Cookies.reducer [] h.
Proof.
  intros H; unfold Cookies.parse; rewrite (split_avoid _ _ H); reflexivity.
Qed.

Section Laws.
Variable K : Jwt.Codec.
Hypothesis HK : Jwt.CodecLaws K.

Lemma sign_shape secret t0 c :
  secret <> EmptyString ->
  Jwt.sign K secret t0 c =
  Some (Jwt.enc_header K "HS256" ++ String "." (Jwt.enc_payload K (Jwt.issued c t0)
        ++ String "." (Jwt.hs256 K secret
             (Jwt.enc_header K "HS256" ++ "." ++ Jwt.enc_payload K (Jwt.issued c t0))))).
Proof.
  intros Hs; unfold Jwt.sign.
  destruct (String.eqb_spec secret EmptyString) as [E|_]; [contradiction|].
  f_equal; rewrite <- !app_assoc; reflexivity.
Qed.

Lemma decode_sign secret t0 c :
  secret <> EmptyString ->
  exists tok, Jwt.sign K secret t0 c = Some tok /\
    Jwt.all_chars Jwt.tok_char tok = true /\
    Jwt.decode K tok =
      Some (Jwt.mkHeader "HS256" true, Jwt.issued c t0,
            Jwt.enc_header K "HS256" ++ "." ++ Jwt.enc_payload K (Jwt.issued c t0),
            Jwt.hs256 K secret (Jwt.enc_header K "HS256" ++ "." ++ Jwt.enc_payload K (Jwt.issued c t0))).
Proof.
  intros Hs; rewrite (sign_shape _ _ _ Hs); eexists; split; [reflexivity|].
  destruct HK as [Hh Hp Ah Ap As Hr Hn].
  split.
  - rewrite all_chars_app, (b64url_tok _ (Ah _)); simpl.
    rewrite all_chars_app, (b64url_tok _ (Ap _)); simpl.
    apply b64url_tok, As.
  - unfold Jwt.decode, Jwt.hs256.
    rewrite (split_app_sep _ _ _ (b64url_avoids_dot _ (Ah _))),
            (split_app_sep _ _ _ (b64url_avoids_dot _ (Ap _))),
            (split_avoid _ _ (b64url_avoids_dot _ (As _))).
    rewrite Hh, Hp; reflexivity.
Qed.

(** The cookie header [auth-token=<tok>] yields [tok]. *)
Lemma token_of_auth_cookie tok :
  Jwt.all_chars Jwt.tok_char tok = true -> tok <> EmptyString ->
  Jwt.token_of_request (Some ("auth-token=" ++ tok)) = Some tok.
Proof.
  intros Ht Hne.
  assert (Hsemi : Jwt.avoids ";" ("auth-token=" ++ tok) = true).
  { unfold Jwt.avoids; rewrite all_chars_app; simpl.
    apply all_chars_impl with (p := Jwt.tok_char); [|exact Ht].
    intros a Ha; apply (tok_char_facts a Ha). }
  assert (Hws : Jwt.all_chars (fun a => negb (JS.is_ws a)) ("auth-token=" ++ tok) = true).
  { rewrite all_chars_app; simpl.
    apply all_chars_impl with (p := Jwt.tok_char); [|exact Ht].
    intros a Ha; apply (tok_char_facts a Ha). }
  assert (Heq : Jwt.avoids "=" tok = true).
  { apply all_chars_impl with (p := Jwt.tok_char); [|exact Ht].
    intros a Ha; apply (tok_char_facts a Ha). }
  assert (Hd : Cookies.destructure_pair ("auth-token=" ++ tok) = ("auth-token", Some tok)).
  { unfold Cookies.destructure_pair; rewrite (trim_no_ws _ Hws).
    change ("auth-token=" ++ tok) with ("auth-token" ++ String "=" tok).
    rewrite (split_app_sep _ _ _ (eq_refl : Jwt.avoids "=" "auth-token" = true)),
            (split_avoid _ _ Heq).
    reflexivity. }
  unfold Jwt.token_of_request, Cookies.auth_token_of.
  rewrite (parse_single _ Hsemi); unfold Cookies.reducer; rewrite Hd.
  destruct tok as [|a r]; [contradiction|reflexivity].
Qed.

(** Both verifiers on a token of [createToken]: it is accepted exactly
    while the current second is before [exp]. *)
Lemma verify_issued secret t0 c tok t :
  secret <> EmptyString -> Jwt.sign K secret t0 c = Some tok ->
  Jwt.jose_verify K secret t tok =
    (if Jwt.epoch t0 + Jwt.day_seconds <=? Jwt.epoch t then None else Some (Jwt.issued c t0)) /\
  Jwt.jwt_verify K secret t tok =
    (if Jwt.epoch t0 + Jwt.day_seconds <=? Jwt.epoch t then None else Some (Jwt.issued c t0)).
Proof.
  intros Hs Hsign.
  destruct (decode_sign secret t0 c Hs) as (tok' & Hsign' & _ & Hdec).
  rewrite Hsign in Hsign'; injection Hsign' as <-.
  unfold Jwt.jose_verify, Jwt.jwt_verify, Jwt.jose_mac_ok; rewrite Hdec.
  destruct (String.eqb_spec secret EmptyString) as [E|_]; [contradiction|].
  destruct HK as [_ _ _ _ _ Hr Hn].
  unfold Jwt.hs256; rewrite Hr, !String.eqb_refl.
  destruct (String.eqb_spec (Jwt.b64url_enc K (Jwt.hmac K "HS256" secret
              (Jwt.enc_header K "HS256" ++ "." ++ Jwt.enc_payload K (Jwt.issued c t0)))) EmptyString)
    as [E|_]; [exfalso; exact (Hn _ _ _ E)|].
  cbn -[Jwt.day_seconds Jwt.epoch].
  destruct (Z.leb_spec (Jwt.epoch t0 + Jwt.day_seconds) (Jwt.epoch t)) as [Hle|Hlt].
  - rewrite (proj2 (Z.ltb_ge _ _) Hle); split; reflexivity.
  - rewrite (proj2 (Z.ltb_lt _ _) Hlt); split; reflexivity.
Qed.

Lemma epoch_shift t0 k : Jwt.epoch (t0 + k * 1000) = Jwt.epoch t0 + k.
Proof. unfold Jwt.epoch; apply Z.div_add; lia. Qed.

(** C1 (amended). For every claim set [{userId, email, name?}] and every
    non-empty secret, [createToken] called at millisecond time [t0] returns
    a token; at any time [t], jose's [getToken] / [getUserIdFromToken] and
    jsonwebtoken's [getUserIdFromTokenSync] accept it (returning the
    claims, with [iat = floor(t0/1000)] and [exp = iat + 86400]) exactly
    when [floor(t/1000) < floor(t0/1000) + 86400], and reject it otherwise;
    in particular it is valid at [t0 + 24h - 1s] and invalid at
    [t0 + 24h + 1s]. *)
Theorem createToken_accepted_until_expiry secret t0 id em nm :
  secret <> EmptyString ->
  exists tok, Jwt.createToken K secret t0 id em nm = Some tok /\
  (forall t,
     Jwt.epoch t < Jwt.epoch t0 + Jwt.day_seconds ->
     Jwt.getToken K secret t (Some ("auth-token=" ++ tok)) = Some (Jwt.issued (Jwt.mkClaims id em nm) t0) /\
     Jwt.jose_verify K secret t tok = Some (Jwt.issued (Jwt.mkClaims id em nm) t0) /\
     Jwt.jwt_verify K secret t tok = Some (Jwt.issued (Jwt.mkClaims id em nm) t0) /\
     Jwt.getUserIdFromToken K secret t (Some ("auth-token=" ++ tok)) = Some id /\
     Jwt.getUserIdFromTokenSync K secret t (Some ("auth-token=" ++ tok)) = Some id) /\
  (forall t,
     Jwt.epoch t0 + Jwt.day_seconds <= Jwt.epoch t ->
     Jwt.getToken K secret t (Some ("auth-token=" ++ tok)) = None /\
     Jwt.jose_verify K secret t tok = None /\
     Jwt.jwt_verify K secret t tok = None /\
     Jwt.getUserIdFromToken K secret t (Some ("auth-token=" ++ tok)) = None /\
     Jwt.getUserIdFromTokenSync K secret t (Some ("auth-token=" ++ tok)) = None) /\
  Jwt.jose_verify K secret (t0 + 86399 * 1000) tok = Some (Jwt.issued (Jwt.mkClaims id em nm) t0) /\
  Jwt.jwt_verify K secret (t0 + 86399 * 1000) tok = Some (Jwt.issued (Jwt.mkClaims id em nm) t0) /\
  Jwt.jose_verify K secret (t0 + 86401 * 1000) tok = None /\
  Jwt.jwt_verify K secret (t0 + 86401 * 1000) tok = None.
Proof.
  intros Hs.
  destruct (decode_sign secret t0 (Jwt.mkClaims id em nm) Hs) as (tok & Hsign & Hchars & _).
  assert (Hne : tok <> EmptyString).
  { intros ->; rewrite (sign_shape _ _ _ Hs) in Hsign; injection Hsign.
    destruct (Jwt.enc_header K "HS256"); discriminate. }
  assert (Hreq := token_of_auth_cookie tok Hchars Hne).
  exists tok; split; [exact Hsign|].
  assert (V := fun t => verify_issued secret t0 _ tok t Hs Hsign).
  unfold Jwt.getToken, Jwt.getUserIdFromToken, Jwt.getUserIdFromTokenSync; rewrite Hreq.
  split; [|split; [|split; [|split; [|split]]]].
  - intros t Ht; destruct (V t) as [V1 V2]; rewrite V1, V2.
    replace (Jwt.epoch t0 + Jwt.day_seconds <=? Jwt.epoch t) with false by (symmetry; apply Z.leb_gt; exact Ht).
    repeat split.
  - intros t Ht; destruct (V t) as [V1 V2]; rewrite V1, V2.
    replace (Jwt.epoch t0 + Jwt.day_seconds <=? Jwt.epoch t) with true by (symmetry; apply Z.leb_le; exact Ht).
    repeat split.
  - destruct (V (t0 + 86399 * 1000)) as [V1 _]; rewrite V1, epoch_shift.
    rewrite (proj2 (Z.leb_gt _ _)) by (unfold Jwt.day_seconds; lia); reflexivity.
  - destruct (V (t0 + 86399 * 1000)) as [_ V2]; rewrite V2, epoch_shift.
    rewrite (proj2 (Z.leb_gt _ _)) by (unfold Jwt.day_seconds; lia); reflexivity.
  - destruct (V (t0 + 86401 * 1000)) as [V1 _]; rewrite V1, epoch_shift.
    replace (Jwt.epoch t0 + Jwt.day_seconds <=? Jwt.epoch t0 + 86401) with true by (symmetry; apply Z.leb_le; unfold Jwt.day_seconds; lia).
    reflexivity.
  - destruct (V (t0 + 86401 * 1000)) as [_ V2]; rewrite V2, epoch_shift.
    replace (Jwt.epoch t0 + Jwt.day_seconds <=? Jwt.epoch t0 + 86401) with true by (symmetry; apply Z.leb_le; unfold Jwt.day_seconds; lia).
    reflexivity.
Qed.

Lemma token_of_request_some h v :
  Jwt.token_of_request h = Some v -> exists s, h = Some s /\ Cookies.auth_token_of s = Some v.
Proof.
  unfold Jwt.token_of_request, JS.falsy; destruct h as [s|]; [|discriminate].
  destruct (String.eqb s EmptyString); [discriminate|].
  destruct (Cookies.auth_token_of s) as [t|] eqn:E; [|discriminate].
  destruct (String.eqb t EmptyString); [discriminate|].
  intros [= <-]; exists s; auto.
Qed.

(** C2. The three session extractors ([getUserIdFromToken],
    [getUserIdFromTokenSync], [getToken]) all return [null] when the
    request has no cookie header, when the header has no [auth-token]
    pair, when the [auth-token] value is not a well-formed token, and when
    it is a well-formed token whose [exp] has passed. *)
Theorem extractors_null_on_failures secret now :
  (Jwt.getUserIdFromToken K secret now None = None /\
   Jwt.getUserIdFromTokenSync K secret now None = None /\
   Jwt.getToken K secret now None = None) /\
  (forall h, Cookies.auth_token_of h = None ->
   Jwt.getUserIdFromToken K secret now (Some h) = None /\
   Jwt.getUserIdFromTokenSync K secret now (Some h) = None /\
   Jwt.getToken K secret now (Some h) = None) /\
  (forall h v, Cookies.auth_token_of h = Some v -> Jwt.decode K v = None ->
   Jwt.getUserIdFromToken K secret now (Some h) = None /\
   Jwt.getUserIdFromTokenSync K secret now (Some h) = None /\
   Jwt.getToken K secret now (Some h) = None) /\
  (forall h v hd p input sg e,
   Cookies.auth_token_of h = Some v -> Jwt.decode K v = Some (hd, p, input, sg) ->
   Jwt.exp p = Some (Jwt.Num e) -> e <= Jwt.epoch now ->
   Jwt.getUserIdFromToken K secret now (Some h) = None /\
   Jwt.getUserIdFromTokenSync K secret now (Some h) = None /\
   Jwt.getToken K secret now (Some h) = None).
Proof.
  unfold Jwt.getUserIdFromToken, Jwt.getUserIdFromTokenSync, Jwt.getToken.
  split; [|split; [|split]].
  - repeat split.
  - intros h Hh.
    destruct (Jwt.token_of_request (Some h)) as [v|] eqn:E; [|repeat split].
    apply token_of_request_some in E as (s & [= <-] & E); congruence.
  - intros h v Hh Hd.
    destruct (Jwt.token_of_request (Some h)) as [v'|] eqn:E; [|repeat split].
    apply token_of_request_some in E as (s & [= <-] & E).
    rewrite Hh in E; injection E as <-.
    unfold Jwt.jose_verify, Jwt.jwt_verify; rewrite Hd.
    destruct (String.eqb secret EmptyString); repeat split.
  - intros h v hd p input sg e Hh Hd He Hexp.
    destruct (Jwt.token_of_request (Some h)) as [v'|] eqn:E; [|repeat split].
    apply token_of_request_some in E as (s & [= <-] & E).
    rewrite Hh in E; injection E as <-.
    unfold Jwt.jose_verify, Jwt.jwt_verify; rewrite Hd, He.
    cbn beta iota zeta delta [Jwt.time_ok].
    rewrite (proj2 (Z.ltb_ge _ _) Hexp), !andb_false_r.
    destruct (String.eqb secret EmptyString); repeat split.
Qed.

End Laws.

End JwtFacts.

(** ** The cookie parser *)
Module CookieFacts.

(** C3 (code bug). [cookie.trim().split('=')] destructured as
    [[key, value]] keeps only the text between the first and the second
    ['=']: the header [auth-token=a=b] yields ["a"], not ["a=b"]; and a
    piece without ['='] is not skipped but stores [undefined], erasing an
    earlier [auth-token] value. *)
Theorem cookie_value_cut_at_second_eq :
  Cookies.auth_token_of "auth-token=a=b" = Some "a" /\
  Cookies.auth_token_of "auth-token=abc; auth-token" = None /\
  Cookies.auth_token_of "auth-token=abc" = Some "abc".
Proof. repeat split; reflexivity. Qed.

End CookieFacts.

(** ** The middleware *)
Module MiddlewareFacts.
Import Middleware.

Lemma isPublicRoute_spec routes p :
  isPublicRoute routes p = true <->
  exists r, In r routes /\ (p = r \/ startsWith p (r ++ "/") = true).
Proof.
  unfold isPublicRoute; rewrite existsb_exists.
  split; intros (r & Hin & H); exists r; split; auto.
  - apply orb_true_iff in H as [H|H]; [left; apply String.eqb_eq|right]; assumption.
  - apply orb_true_iff; destruct H as [->|H]; [left; apply String.eqb_refl|right; exact H].
Qed.

Lemma isProtectedRoute_spec routes p :
  isProtectedRoute routes p = true <-> exists r, In r routes /\ startsWith p r = true.
Proof. unfold isProtectedRoute; apply existsb_exists. Qed.

(** C5. Public-route membership ([pathname === route] or
    [pathname.startsWith(route + '/')]) is tested first: a public path is
    allowed whatever the cookies, the verifier state and the protected
    table (so a public entry wins over any protected prefix); a path in
    neither table is allowed as well. *)
Theorem public_checked_first publicR p :
  (isPublicRoute publicR p = true <->
   exists r, In r publicR /\ (p = r \/ startsWith p (r ++ "/") = true)) /\
  (isPublicRoute publicR p = true ->
   forall protectedR K secret now cookies,
   middleware_with publicR protectedR K secret now p cookies = Next []) /\
  (forall protectedR, isPublicRoute publicR p = false -> isProtectedRoute protectedR p = false ->
   forall K secret now cookies,
   middleware_with publicR protectedR K secret now p cookies = Next []).
Proof.
  split; [apply isPublicRoute_spec|split].
  - intros Hp prot K secret now cookies; unfold middleware_with; rewrite Hp; reflexivity.
  - intros prot Hp Hq K secret now cookies; unfold middleware_with; rewrite Hp, Hq; reflexivity.
Qed.

(** The outcome on a path that is protected and not public. *)
Lemma middleware_protected K secret now p cookies :
  isPublicRoute publicRoutes p = false -> isProtectedRoute protectedRoutes p = true ->
  middleware K secret now p cookies =
  match cookies "auth-token" with
  | None => Redirect (mkUrl "/login" [("redirect", p)]) []
  | Some token =>
      if String.eqb token EmptyString then Redirect (mkUrl "/login" [("redirect", p)]) []
      else match Jwt.jose_verify K secret now token with
           | Some payload =>
               Next [("x-user-id", Jwt.userId (Jwt.claims payload));
                     ("x-user-email", Jwt.email (Jwt.claims payload))]
           | None => Redirect (mkUrl "/login" []) ["auth-token"]
           end
  end.
Proof. intros Hp Hq; unfold middleware, middleware_with; rewrite Hp, Hq; reflexivity. Qed.

Lemma decode_nonempty K t r : Jwt.decode K t = Some r -> t <> EmptyString.
Proof. intros H ->; discriminate H. Qed.

(** C4. [/login] is allowed whatever the cookies; [/dashboard] without
    an [auth-token] cookie redirects to [/login?redirect=/dashboard];
    [/dashboard] with a non-empty token that [jwtVerify] rejects redirects
    to [/login] and deletes [auth-token], in particular a well-formed token
    whose signature does not verify (jose's check: the decoded signature
    bytes differ from the HMAC of the signing input under the header's
    algorithm, or the segment does not decode) or whose [exp] has passed;
    [/dashboard] with a verifying token is allowed with [x-user-id] and
    [x-user-email] set from the payload. *)
Theorem gatekeeper_cases K secret now :
  (forall cookies, middleware K secret now "/login" cookies = Next []) /\
  (forall cookies, cookies "auth-token" = None ->
   middleware K secret now "/dashboard" cookies =
   Redirect (mkUrl "/login" [("redirect", "/dashboard")]) []) /\
  (forall cookies t, cookies "auth-token" = Some t -> t <> EmptyString ->
   Jwt.jose_verify K secret now t = None ->
   middleware K secret now "/dashboard" cookies = Redirect (mkUrl "/login" []) ["auth-token"]) /\
  (forall cookies t hd p input sg,
   cookies "auth-token" = Some t -> Jwt.decode K t = Some (hd, p, input, sg) ->
   (Jwt.jose_mac_ok K (Jwt.alg hd) secret input sg = false \/
    exists e, Jwt.exp p = Some (Jwt.Num e) /\ e <= Jwt.epoch now) ->
   middleware K secret now "/dashboard" cookies = Redirect (mkUrl "/login" []) ["auth-token"]) /\
  (forall cookies t p, cookies "auth-token" = Some t -> Jwt.jose_verify K secret now t = Some p ->
   middleware K secret now "/dashboard" cookies =
   Next [("x-user-id", Jwt.userId (Jwt.claims p)); ("x-user-email", Jwt.email (Jwt.claims p))]).
Proof.
  split; [intros; reflexivity|split; [|split; [|split]]].
  - intros cookies Hc; rewrite middleware_protected by reflexivity; rewrite Hc; reflexivity.
  - intros cookies t Hc Hne Hv.
    rewrite middleware_protected by reflexivity; rewrite Hc, Hv.
    destruct (String.eqb_spec t EmptyString) as [E|_]; [contradiction|reflexivity].
  - intros cookies t hd p input sg Hc Hd Hf.
    rewrite middleware_protected by reflexivity; rewrite Hc.
    destruct (String.eqb_spec t EmptyString) as [E|_]; [exfalso; exact (decode_nonempty _ _ _ Hd E)|].
    replace (Jwt.jose_verify K secret now t) with (@None Jwt.Payload); [reflexivity|].
    unfold Jwt.jose_verify; rewrite Hd.
    destruct Hf as [Hs|(e & He & Hle)].
    + rewrite Hs, andb_false_r; reflexivity.
    + rewrite He; cbn beta iota zeta delta [Jwt.time_ok].
      rewrite (proj2 (Z.ltb_ge _ _) Hle), andb_false_r; reflexivity.
  - intros cookies t p Hc Hv.
    rewrite middleware_protected by reflexivity; rewrite Hc.
    destruct (String.eqb_spec t EmptyString) as [->|_].
    + unfold Jwt.jose_verify, Jwt.decode in Hv; discriminate Hv.
    + rewrite Hv; reflexivity.
Qed.

Lemma prefix_comparable a b p :
  String.prefix a p = true -> String.prefix b p = true ->
  String.prefix a b = true \/ String.prefix b a = true.
Proof.
  assert (E : forall s, String.prefix EmptyString s = true) by (destruct s; reflexivity).
  revert a b; induction p as [|c p IH]; intros a b Ha Hb.
  - destruct a; [left; apply E|discriminate].
  - destruct a as [|x a]; [left; apply E|].
    destruct b as [|y b]; [right; apply E|].
    simpl in Ha, Hb |- *.
    destruct (ascii_dec x c) as [->|]; [|discriminate].
    destruct (ascii_dec y c) as [->|]; [|discriminate].
    destruct (ascii_dec c c) as [_|n]; [|contradiction].
    apply IH; assumption.
Qed.

Lemma tables_disjoint :
  forallb (fun r => forallb (fun r' =>
      negb (String.prefix r r') && negb (String.prefix r (r' ++ "/"))
      && negb (String.prefix (r' ++ "/") r)) publicRoutes) protectedRoutes = true.
Proof. vm_compute; reflexivity. Qed.

Lemma protected_prefix_not_public p r :
  In r protectedRoutes -> startsWith p r = true -> isPublicRoute publicRoutes p = false.
Proof.
  intros Hin Hr.
  destruct (isPublicRoute publicRoutes p) eqn:Hp; [|reflexivity].
  apply isPublicRoute_spec in Hp as (r' & Hin' & Hp).
  pose proof tables_disjoint as D.
  rewrite forallb_forall in D; specialize (D r Hin).
  rewrite forallb_forall in D; specialize (D r' Hin').
  apply andb_prop in D as [D D3]; apply andb_prop in D as [D1 D2].
  apply negb_true_iff in D1, D2, D3.
  destruct Hp as [->|Hp].
  - unfold startsWith in Hr; congruence.
  - destruct (prefix_comparable _ _ _ Hr Hp); congruence.
Qed.

(** C9. Protected matching is a bare [startsWith]: every path beginning
    with a protected string, such as [/dashboard-public] or [/settingsX],
    is not public, is protected, is redirected to login (with its path)
    when there is no [auth-token] cookie, and is allowed only with a
    verifying [auth-token] cookie; public matching needs an exact match or
    a ['/'] after the entry ([/loginX] is not public, [/login/x] is). *)
Theorem protected_match_is_bare_prefix K secret now p r cookies :
  In r protectedRoutes -> startsWith p r = true ->
  isPublicRoute publicRoutes p = false /\
  isProtectedRoute protectedRoutes p = true /\
  (cookies "auth-token" = None ->
   middleware K secret now p cookies = Redirect (mkUrl "/login" [("redirect", p)]) []) /\
  (forall hs, middleware K secret now p cookies = Next hs ->
   exists t payload, cookies "auth-token" = Some t /\ Jwt.jose_verify K secret now t = Some payload) /\
  isProtectedRoute protectedRoutes "/dashboard-public" = true /\
  isProtectedRoute protectedRoutes "/settingsX" = true /\
  isPublicRoute publicRoutes "/loginX" = false /\
  isPublicRoute publicRoutes "/login/x" = true.
Proof.
  intros Hin Hr.
  assert (Hp := protected_prefix_not_public p r Hin Hr).
  assert (Hq : isProtectedRoute protectedRoutes p = true)
    by (apply isProtectedRoute_spec; exists r; auto).
  split; [exact Hp|split; [exact Hq|split; [|split; [|repeat split]]]].
  - intros Hc; rewrite (middleware_protected K secret now p cookies Hp Hq), Hc; reflexivity.
  - intros hs; rewrite (middleware_protected K secret now p cookies Hp Hq).
    destruct (cookies "auth-token") as [t|]; [|discriminate].
    destruct (String.eqb t EmptyString); [discriminate|].
    destruct (Jwt.jose_verify K secret now t) as [pl|] eqn:E; [|discriminate].
    intros _; exists t, pl; auto.
Qed.

(** C6 (code bug). On [/dashboard], a missing cookie redirects to
    [/login?redirect=/dashboard], but an expired token (issued at [0] with
    [createToken], presented at [24h]) redirects to bare [/login]: the
    [catch] branch builds [new URL('/login', request.url)] without the
    [redirect] parameter. *)
Theorem failed_verification_loses_redirect :
  exists tok, Jwt.createToken Toy.codec "k3y" 0 "u1" "a@b.c" None = Some tok /\
  middleware Toy.codec "k3y" 86400000 "/dashboard"
    (fun k => if String.eqb k "auth-token" then Some tok else None)
  = Redirect (mkUrl "/login" []) ["auth-token"] /\
  middleware Toy.codec "k3y" 86400000 "/dashboard" (fun _ => None)
  = Redirect (mkUrl "/login" [("redirect", "/dashboard")]) [].
Proof. eexists; split; [reflexivity|]; split; vm_compute; reflexivity. Qed.

End MiddlewareFacts.

(** ** The login and register handlers *)
Module ApiFacts.
Import Api.

Section Handlers.
Variable is_email : string -> bool.
Variable find_user : string -> M (option User).
Variable bcrypt_compare : string -> string -> bool.
Variable bcrypt_hash : string -> Z -> M string.
Variable gen_salt : Z -> string.
Variable create_user : string -> string -> M User.
Variable create_aspNetUser : AspNetUser -> M AspNetUser.
Variable K : Jwt.Codec.
Variable JWT_SECRET NODE_ENV : string.
Variable now_ms : Z.

Local Abbreviation login :=
  (login_POST is_email find_user bcrypt_compare K JWT_SECRET NODE_ENV now_ms).
Local Abbreviation register :=
  (register_POST is_email find_user bcrypt_hash gen_salt create_user create_aspNetUser).

(** The session cookie of a successful login. *)
Local Abbreviation session_cookie tok :=
  (mkSetCookie "auth-token" tok
     (mkCookieOpts true (String.eqb NODE_ENV "production") "strict" (24 * 60 * 60) "/")).

Lemma login_outcomes ob :
  (exists e, login ob = handle e) \/
  login ob = invalid_credentials \/
  exists b email password u tok,
    ob = Some b /\ loginSchema_parse is_email b = inr (email, password) /\
    find_user (JS.toLowerCase email) = inr (Some u) /\
    Jwt.sign K JWT_SECRET now_ms (Jwt.mkClaims (u_id u) (u_email u) (u_name u)) = Some tok /\
    login ob = mkResponse 200
      (JObj [("message", JStr "Login successful"); ("user", user_json u)])
      [session_cookie tok].
Proof.
  unfold login_POST, run, bind, of_option, ret, throw.
  destruct ob as [b|]; [|left; eexists; reflexivity].
  destruct (loginSchema_parse is_email b) as [e|[email password]] eqn:Hp;
    [left; eexists; reflexivity|].
  destruct (find_user (JS.toLowerCase email)) as [e|[u|]] eqn:Hf;
    [left; eexists; reflexivity| |right; left; reflexivity].
  destruct (u_aspNetUser u) as [a|]; [|right; left; reflexivity].
  destruct (negb _); [right; left; reflexivity|].
  destruct (Jwt.sign K JWT_SECRET now_ms _) as [tok|] eqn:Hs; [|left; eexists; reflexivity].
  right; right; exists b, email, password, u, tok; repeat split; assumption.
Qed.

Lemma register_outcomes ob :
  (exists e, register ob = handle e) \/
  register ob = mkResponse 409 (JObj [("error", JStr "User with this email already exists")]) [] \/
  exists n e u, create_user n e = inr u /\
    register ob = mkResponse 201
      (JObj [("message", JStr "User registered successfully"); ("user", user_json u)]) [].
Proof.
  unfold register_POST, run, bind, of_option, ret, throw.
  destruct ob as [b|]; [|left; eexists; reflexivity].
  destruct (registerSchema_parse is_email b) as [e|[[fullName email] password]];
    [left; eexists; reflexivity|].
  destruct (find_user (JS.toLowerCase email)) as [e|[u|]];
    [left; eexists; reflexivity|right; left; reflexivity|].
  destruct (bcrypt_hash password 12) as [e|h]; [left; eexists; reflexivity|].
  destruct (create_user (JS.toLowerCase email) fullName) as [e|u] eqn:Hc;
    [left; eexists; reflexivity|].
  destruct (create_aspNetUser _) as [e|a]; [left; eexists; reflexivity|].
  right; right; exists (JS.toLowerCase email), fullName, u; split; [exact Hc|reflexivity].
Qed.

Lemma handle_status e : status (handle e) = 400 \/ status (handle e) = 500.
Proof. destruct e; [left|right]; reflexivity. Qed.

Lemma issues_no_key k is :
  String.eqb "message" k = false -> String.eqb "path" k = false ->
  has_key k (issues_json is) = false.
Proof.
  intros Hm Hp; induction is as [|i is IH]; [reflexivity|].
  cbn [issues_json map has_key existsb] in *.
  rewrite IH; cbn [fst snd existsb has_key]; rewrite Hm, Hp; reflexivity.
Qed.

Lemma handle_no_key k e :
  String.eqb "message" k = false -> String.eqb "path" k = false ->
  String.eqb "error" k = false -> String.eqb "details" k = false ->
  has_key k (body (handle e)) = false.
Proof.
  intros Hm Hp He Hd; destruct e as [is|]; cbn [handle body has_key existsb fst snd];
    rewrite ?He, ?Hd; [|reflexivity].
  rewrite (issues_no_key k is Hm Hp); reflexivity.
Qed.

Lemma user_json_no_key k u :
  String.eqb "id" k = false -> String.eqb "email" k = false ->
  String.eqb "name" k = false -> String.eqb "createdAt" k = false ->
  has_key k (user_json u) = false.
Proof.
  intros H1 H2 H3 H4; unfold user_json.
  cbn [has_key existsb fst snd]; rewrite H1, H2, H3, H4.
  destruct (u_name u); reflexivity.
Qed.

(** C7. With a well-formed body, an unknown email (no user, or a user
    without credential record) and a wrong password give the same
    response: 401 with body [{error: 'Invalid email or password'}]. *)
Theorem login_failures_indistinguishable b email password :
  loginSchema_parse is_email b = inr (email, password) ->
  ((find_user (JS.toLowerCase email) = inr None \/
    exists u, find_user (JS.toLowerCase email) = inr (Some u) /\ u_aspNetUser u = None) ->
   login (Some b) = mkResponse 401 (JObj [("error", JStr "Invalid email or password")]) []) /\
  (forall u a,
   find_user (JS.toLowerCase email) = inr (Some u) -> u_aspNetUser u = Some a ->
   bcrypt_compare password (match a_passwordHash a with Some h => h | None => EmptyString end) = false ->
   login (Some b) = mkResponse 401 (JObj [("error", JStr "Invalid email or password")]) []).
Proof.
  intros Hp; unfold login_POST, run, bind, of_option, ret; rewrite Hp; split.
  - intros [Hf|(u & Hf & Ha)]; rewrite Hf; [reflexivity|]; rewrite Ha; reflexivity.
  - intros u a Hf Ha Hc; rewrite Hf, Ha, Hc; reflexivity.
Qed.

(** C8. Every successful (200) login sets exactly one cookie: [auth-token]
    holding the token signed for the found user, with HttpOnly, Secure iff
    [NODE_ENV === 'production'], SameSite [strict], Max-Age 86400 and
    Path [/]. *)
Theorem login_success_sets_session_cookie ob :
  status (login ob) = 200 ->
  exists b email password u tok,
    ob = Some b /\ loginSchema_parse is_email b = inr (email, password) /\
    find_user (JS.toLowerCase email) = inr (Some u) /\
    Jwt.sign K JWT_SECRET now_ms (Jwt.mkClaims (u_id u) (u_email u) (u_name u)) = Some tok /\
    set_cookies (login ob) =
      [mkSetCookie "auth-token" tok
         (mkCookieOpts true (String.eqb NODE_ENV "production") "strict" 86400 "/")].
Proof.
  intros H200.
  destruct (login_outcomes ob) as [(e & He)|[Hi|(b & email & password & u & tok & Hb & Hp & Hf & Hs & Hr)]].
  - rewrite He in H200; destruct (handle_status e) as [E|E]; rewrite E in H200; discriminate.
  - rewrite Hi in H200; discriminate.
  - exists b, email, password, u, tok; repeat split; try assumption.
    rewrite Hr; reflexivity.
Qed.

(** C10. A 200 login body and a 201 register body are
    [{message, user: {id, email, name, createdAt}}] of the found or created
    user, and no response body of either handler, on any input and any
    outcome, has a [passwordHash] or [securityStamp] key. *)
Theorem auth_bodies_hide_credentials ob :
  (status (login ob) = 200 ->
   exists email u, find_user email = inr (Some u) /\
   body (login ob) =
     JObj [("message", JStr "Login successful");
           ("user", JObj [("id", JStr (u_id u)); ("email", JStr (u_email u));
                          ("name", name_json (u_name u)); ("createdAt", JStr (u_createdAt u))])]) /\
  (status (register ob) = 201 ->
   exists n e u, create_user n e = inr u /\
   body (register ob) =
     JObj [("message", JStr "User registered successfully");
           ("user", JObj [("id", JStr (u_id u)); ("email", JStr (u_email u));
                          ("name", name_json (u_name u)); ("createdAt", JStr (u_createdAt u))])]) /\
  has_key "passwordHash" (body (login ob)) = false /\
  has_key "securityStamp" (body (login ob)) = false /\
  has_key "passwordHash" (body (register ob)) = false /\
  has_key "securityStamp" (body (register ob)) = false.
Proof.
  destruct (login_outcomes ob) as [(e & He)|[Hi|(b & email & password & u & tok & Hb & Hp & Hf & Hs & Hr)]];
  destruct (register_outcomes ob) as [(e' & He')|[Hi'|(n & em & u' & Hc & Hr')]];
  repeat split;
  repeat match goal with
  | H : login ob = _ |- _ => rewrite H
  | H : register ob = _ |- _ => rewrite H
  end;
  try (intros E; destruct (handle_status e) as [E'|E']; rewrite E' in E; discriminate);
  try (intros E; destruct (handle_status e') as [E'|E']; rewrite E' in E; discriminate);
  try (intros E; discriminate E);
  try (intros _; eexists; eexists; eauto; fail);
  try (intros _; do 3 eexists; eauto; fail);
  try (apply handle_no_key; reflexivity);
  try reflexivity;
  try (cbn [body has_key existsb fst snd]; rewrite user_json_no_key; reflexivity).
Qed.

End Handlers.
End ApiFacts.

(** ** Concrete instances of the theorems *)
Module Witnesses.
Import Api.

(** The C1 theorem at a concrete secret, issuance time and claim set:
    the token is accepted by [getToken] one second before expiry. *)
Lemma createToken_accepted_until_expiry_witness :
  "k3y" <> EmptyString /\
  exists tok,
    Jwt.createToken Toy.codec "k3y" 1700000000123 "u1" "a@b.c" (Some "Al") = Some tok /\
    Jwt.getToken Toy.codec "k3y" 1700086399999 (Some ("auth-token=" ++ tok))
    = Some (Jwt.mkPayload (Jwt.mkClaims "u1" "a@b.c" (Some "Al"))
              (Some (Jwt.Num 1700000000)) (Some (Jwt.Num 1700086400)) None).
Proof.
  assert (Hs : "k3y" <> EmptyString) by discriminate.
  split; [exact Hs|].
  destruct (JwtFacts.createToken_accepted_until_expiry Toy.codec ToyFacts.codec_laws
              "k3y" 1700000000123 "u1" "a@b.c" (Some "Al") Hs) as (tok & H1 & H2 & _).
  exists tok; split; [exact H1|].
  apply H2; vm_compute; reflexivity.
Defined.

(** C1 as stated fails: with the empty secret [createToken] throws, and a
    token issued at [999] ms is already rejected at [86400998] ms, which
    is before issuance + 24h ([86400999] ms). *)
Lemma createToken_claim_counterexample :
  Jwt.createToken Toy.codec EmptyString 0 "u1" "a@b.c" None = None /\
  exists tok,
    Jwt.createToken Toy.codec "k3y" 999 "u1" "a@b.c" None = Some tok /\
    86400998 < 999 + 24 * 60 * 60 * 1000 /\
    Jwt.getToken Toy.codec "k3y" 86400998 (Some ("auth-token=" ++ tok)) = None /\
    Jwt.jwt_verify Toy.codec "k3y" 86400998 tok = None.
Proof.
  split; [reflexivity|].
  eexists; split; [reflexivity|].
  split; [lia|split; vm_compute; reflexivity].
Qed.

(** The four failure cases of C2 at concrete requests. *)
Lemma extractors_null_on_failures_witness :
  Jwt.getToken Toy.codec "k3y" 0 None = None /\
  Jwt.getUserIdFromToken Toy.codec "k3y" 0 (Some "theme=dark") = None /\
  Jwt.getUserIdFromTokenSync Toy.codec "k3y" 0 (Some "auth-token=garbage") = None /\
  exists tok, Jwt.createToken Toy.codec "k3y" 0 "u1" "a@b.c" None = Some tok /\
    Jwt.getToken Toy.codec "k3y" 86400000 (Some ("auth-token=" ++ tok)) = None.
Proof.
  destruct (JwtFacts.extractors_null_on_failures Toy.codec "k3y" 0) as ((_ & _ & H0) & H1 & H2 & _).
  split; [exact H0|split; [apply H1; reflexivity|split]].
  - apply (H2 _ "garbage"); reflexivity.
  - eexists; split; [reflexivity|].
    destruct (JwtFacts.extractors_null_on_failures Toy.codec "k3y" 86400000) as (_ & _ & _ & H3).
    eapply H3; [reflexivity|vm_compute; reflexivity|reflexivity|vm_compute; discriminate].
Defined.

(** C4 at a concrete verifying cookie. *)
Lemma gatekeeper_cases_witness :
  exists tok, Jwt.createToken Toy.codec "k3y" 0 "u1" "a@b.c" None = Some tok /\
    Middleware.middleware Toy.codec "k3y" 1000 "/dashboard"
      (fun k => if String.eqb k "auth-token" then Some tok else None)
    = Middleware.Next [("x-user-id", "u1"); ("x-user-email", "a@b.c")].
Proof.
  eexists; split; [reflexivity|].
  destruct (MiddlewareFacts.gatekeeper_cases Toy.codec "k3y" 1000) as (_ & _ & _ & _ & H).
  eapply (H _ _ (Jwt.issued (Jwt.mkClaims "u1" "a@b.c" None) 0)); [reflexivity|vm_compute; reflexivity].
Defined.

(** C7 at an unknown email and at a wrong password for a known user. *)
Lemma login_failures_indistinguishable_witness :
  loginSchema_parse Demo.is_email (Demo.login_body "bob@example.com" "pw") = inr ("bob@example.com", "pw") /\
  Demo.login (Some (Demo.login_body "bob@example.com" "pw"))
  = mkResponse 401 (JObj [("error", JStr "Invalid email or password")]) [] /\
  Demo.login (Some (Demo.login_body "alice@example.com" "wrong"))
  = mkResponse 401 (JObj [("error", JStr "Invalid email or password")]) [].
Proof.
  split; [reflexivity|split].
  - apply (proj1 (ApiFacts.login_failures_indistinguishable Demo.is_email Demo.find_user
             Demo.bcrypt_compare Toy.codec "k3y" "production" 0 (Demo.login_body "bob@example.com" "pw")
             "bob@example.com" "pw" eq_refl)).
    left; reflexivity.
  - apply (proj2 (ApiFacts.login_failures_indistinguishable Demo.is_email Demo.find_user
             Demo.bcrypt_compare Toy.codec "k3y" "production" 0 (Demo.login_body "alice@example.com" "wrong")
             "alice@example.com" "wrong" eq_refl)
             Demo.alice Demo.alice_credentials); reflexivity.
Defined.

(** C8 at a successful login in production. *)
Lemma login_success_sets_session_cookie_witness :
  status (Demo.login (Some (Demo.login_body "alice@example.com" "pw123456"))) = 200 /\
  exists tok,
    set_cookies (Demo.login (Some (Demo.login_body "alice@example.com" "pw123456")))
    = [mkSetCookie "auth-token" tok (mkCookieOpts true true "strict" 86400 "/")].
Proof.
  assert (H : status (Demo.login (Some (Demo.login_body "alice@example.com" "pw123456"))) = 200)
    by (vm_compute; reflexivity).
  split; [exact H|].
  destruct (ApiFacts.login_success_sets_session_cookie Demo.is_email Demo.find_user
              Demo.bcrypt_compare Toy.codec "k3y" "production" 0 _ H)
    as (b & email & password & u & tok & _ & _ & _ & _ & Hc).
  exists tok; exact Hc.
Defined.

(** C9 at [/dashboard-public] without a cookie. *)
Lemma protected_match_is_bare_prefix_witness :
  In "/dashboard" Middleware.protectedRoutes /\
  Middleware.startsWith "/dashboard-public" "/dashboard" = true /\
  Middleware.middleware Toy.codec "k3y" 0 "/dashboard-public" (fun _ => None)
  = Middleware.Redirect (Middleware.mkUrl "/login" [("redirect", "/dashboard-public")]) [].
Proof.
  assert (Hin : In "/dashboard" Middleware.protectedRoutes) by (left; reflexivity).
  assert (Hs : Middleware.startsWith "/dashboard-public" "/dashboard" = true) by reflexivity.
  split; [exact Hin|split; [exact Hs|]].
  destruct (MiddlewareFacts.protected_match_is_bare_prefix Toy.codec "k3y" 0 _ _ (fun _ => None) Hin Hs)
    as (_ & _ & H & _).
  apply H; reflexivity.
Defined.

End Witnesses.

(** * Further properties of the code *)

(** ** Reading a cookie header *)
Module CookieHeaderFacts.
Import StringFacts CookieHeader.

Lemma destructure_space s : Cookies.destructure_pair (String " " s) = Cookies.destructure_pair s.
Proof. reflexivity. Qed.

Lemma split_space x :
  JS.split ";" (String " " x) =
  match JS.split ";" x with [] => [String " " EmptyString] | y :: ys => String " " y :: ys end.
Proof. reflexivity. Qed.

Lemma token_avoids s :
  cookie_token s = true ->
  Jwt.avoids ";" s = true /\ Jwt.avoids "=" s = true /\
  Jwt.all_chars (fun a => negb (JS.is_ws a)) s = true.
Proof.
  intros H; unfold cookie_token in H; repeat split; revert H; apply all_chars_impl;
    intros a Ha; apply andb_prop in Ha as [Ha H3]; apply andb_prop in Ha as [H1 H2]; assumption.
Qed.

Lemma pair_str_ok kv :
  cookie_token (fst kv) = true -> cookie_token (snd kv) = true ->
  Jwt.avoids ";" (pair_str kv) = true /\
  Cookies.destructure_pair (pair_str kv) = (fst kv, Some (snd kv)).
Proof.
  destruct kv as [k v]; simpl; intros Hk Hv.
  destruct (token_avoids _ Hk) as (Hk1 & Hk2 & Hk3).
  destruct (token_avoids _ Hv) as (Hv1 & Hv2 & Hv3).
  unfold pair_str; simpl; split.
  - unfold Jwt.avoids in *; rewrite all_chars_app; simpl; rewrite Hk1, Hv1; reflexivity.
  - unfold Cookies.destructure_pair.
    rewrite trim_no_ws by (rewrite all_chars_app; simpl; rewrite Hk3, Hv3; reflexivity).
    rewrite (split_app_sep _ _ _ Hk2), (split_avoid _ _ Hv2); reflexivity.
Qed.

Lemma split_header first rest :
  well_formed (first :: rest) ->
  JS.split ";" (cookie_header first rest) =
  pair_str first :: map (fun kv => String " " (pair_str kv)) rest.
Proof.
  revert first; induction rest as [|kv r IH]; intros first HF;
    inversion HF as [|? ? [Hk Hv] HF']; subst.
  - apply split_avoid, (pair_str_ok _ Hk Hv).
  - cbn [cookie_header].
    change ("; " ++ cookie_header kv r) with (String ";" (String " " (cookie_header kv r))).
    rewrite (split_app_sep _ _ _ (proj1 (pair_str_ok _ Hk Hv))), split_space, (IH _ HF').
    reflexivity.
Qed.

Lemma get_reducer k (x acc : Cookies.Jar) c :
  k <> "__proto__" ->
  Cookies.get (x ++ Cookies.reducer acc c)%list k = Cookies.get (x ++ Cookies.destructure_pair c :: acc)%list k.
Proof.
  intros Hk; induction x as [|[k' v'] x IH]; simpl.
  - unfold Cookies.reducer; destruct (Cookies.destructure_pair c) as [k' v].
    destruct (String.eqb_spec k' "__proto__") as [->|_]; [|reflexivity].
    cbn [Cookies.get]; destruct (String.eqb_spec "__proto__" k) as [E|_]; [congruence|reflexivity].
  - rewrite IH; reflexivity.
Qed.

Lemma fold_reducer l acc k :
  k <> "__proto__" ->
  Cookies.get (fold_left Cookies.reducer l acc) k =
  Cookies.get (rev (map Cookies.destructure_pair l) ++ acc)%list k.
Proof.
  intros Hk; revert acc; induction l as [|c l IH]; intros acc; [reflexivity|].
  cbn [fold_left map rev]; rewrite IH, <- List.app_assoc.
  apply (get_reducer _ _ _ _ Hk).
Qed.

Lemma get_map_find l k :
  Cookies.get (map (fun kv => (fst kv, Some (snd kv))) l) k =
  option_map snd (find (fun kv => String.eqb (fst kv) k) l).
Proof.
  induction l as [|[k' v] l IH]; simpl; [reflexivity|].
  destruct (String.eqb k' k); [reflexivity|exact IH].
Qed.

Lemma header_nonempty first rest : String.eqb (cookie_header first rest) EmptyString = false.
Proof.
  destruct first as [k v]; destruct rest; unfold cookie_header, pair_str; simpl;
    destruct k; reflexivity.
Qed.

Lemma parse_header first rest k :
  well_formed (first :: rest) -> k <> "__proto__" ->
  Cookies.get (Cookies.parse (cookie_header first rest)) k = last_value (first :: rest) k.
Proof.
  intros HF Hproto; unfold Cookies.parse, last_value.
  rewrite (split_header _ _ HF), (fold_reducer _ _ _ Hproto), app_nil_r.
  replace (map Cookies.destructure_pair
             (pair_str first :: map (fun kv => String " " (pair_str kv)) rest))
    with (map (fun kv => (fst kv, Some (snd kv))) (first :: rest)).
  - rewrite <- map_rev; apply get_map_find.
  - inversion HF as [|? ? [Hk Hv] HF']; subst.
    cbn [map]; f_equal; [symmetry; apply (pair_str_ok _ Hk Hv)|].
    rewrite map_map; apply map_ext_in; intros kv Hin.
    rewrite Forall_forall in HF'; destruct (HF' kv Hin) as [Hk' Hv'].
    rewrite destructure_space; symmetry; apply (pair_str_ok _ Hk' Hv').
Qed.

Lemma token_of_header first rest :
  well_formed (first :: rest) ->
  Jwt.token_of_request (Some (cookie_header first rest)) =
    match last_value (first :: rest) "auth-token" with
    | Some t => if String.eqb t EmptyString then None else Some t
    | None => None
    end.
Proof.
  intros HF; unfold Jwt.token_of_request, JS.falsy, Cookies.auth_token_of.
  rewrite header_nonempty, (parse_header _ _ _ HF) by discriminate.
  destruct (last_value (first :: rest) "auth-token") as [t|]; [|reflexivity].
  destruct (String.eqb t EmptyString); reflexivity.
Qed.

(** X1. On a header [name=value; name=value; ...] whose names and values
    have no [';'], ['='] or white space, the token the extractors read is
    the value of the LAST pair named [auth-token] ([null] when there is
    none or it is empty), whatever the other pairs are, pairs named
    [__proto__] included. *)
Theorem cookie_header_last_value_wins first rest :
  well_formed (first :: rest) ->
  Jwt.token_of_request (Some (cookie_header first rest)) =
    match last_value (first :: rest) "auth-token" with
    | Some t => if String.eqb t EmptyString then None else Some t
    | None => None
    end.
Proof.
  intros HF; unfold Jwt.token_of_request, JS.falsy, Cookies.auth_token_of.
  rewrite header_nonempty, (parse_header _ _ _ HF) by discriminate.
  destruct (last_value (first :: rest) "auth-token") as [t|]; [|reflexivity].
  destruct (String.eqb t EmptyString); reflexivity.
Qed.

End CookieHeaderFacts.

(** ** Where the middleware runs *)
Module EdgeFacts.
Import Middleware EdgeConfig.

Lemma prefix_app a b : String.prefix a b = true -> exists x, b = a ++ x.
Proof.
  revert b; induction a as [|c a IH]; intros b H.
  - exists b; reflexivity.
  - destruct b as [|d b]; [discriminate|]; simpl in H.
    destruct (ascii_dec c d) as [->|]; [|discriminate].
    destruct (IH b H) as [x ->]; exists x; reflexivity.
Qed.

(** X5. Next.js runs the middleware on no path beginning with [/api]
    (nor on [/apiary] and the like), so the [/api/...] entries of
    [publicRoutes] are never consulted and API routes get no redirect;
    every path beginning with a protected prefix (without line breaks)
    is matched, so the middleware's checks apply to it. *)
Theorem matcher_scope K secret now p cookies :
  (startsWith p "/api" = true -> edge K secret now p cookies = Next []) /\
  (forall r, In r protectedRoutes -> startsWith p r = true -> Jwt.all_chars line_char p = true ->
   edge K secret now p cookies = middleware K secret now p cookies).
Proof.
  split.
  - intros H; destruct (prefix_app _ _ H) as [x ->]; reflexivity.
  - intros r Hin Hr Hl; destruct (prefix_app _ _ Hr) as [x ->]; unfold edge.
    replace (matches (r ++ x)) with true; [reflexivity|symmetry].
    simpl in Hin; destruct Hin as [<-|[<-|[<-|[<-|[<-|[]]]]]]; exact Hl.
Qed.

End EdgeFacts.

(** ** A session cookie among other cookies *)
Module SessionCookieFacts.
Import StringFacts CookieHeader CookieHeaderFacts.

Lemma tok_cookie_token tok : Jwt.all_chars Jwt.tok_char tok = true -> cookie_token tok = true.
Proof.
  apply all_chars_impl; intros a Ha.
  destruct (JwtFacts.tok_char_facts a Ha) as (H1 & H2 & H3); rewrite H1, H2, H3; reflexivity.
Qed.

Lemma last_value_snoc l k v : last_value (l ++ [(k, v)]) k = Some v.
Proof. unfold last_value; rewrite rev_app_distr; simpl; rewrite String.eqb_refl; reflexivity. Qed.

(** X2. For a non-empty secret, the token [createToken] returns is read
    from a cookie header that carries other well-formed cookies before it
    ([theme=dark; lang=en; auth-token=<token>]): until it expires,
    [getUserIdFromToken] and [getUserIdFromTokenSync] return the user's
    id and [getToken] the signed payload. *)
Theorem session_cookie_among_others K (HK : Jwt.CodecLaws K) secret t0 id em nm first rest :
  secret <> EmptyString -> well_formed (first :: rest) ->
  exists tok, Jwt.createToken K secret t0 id em nm = Some tok /\
  forall t, Jwt.epoch t < Jwt.epoch t0 + Jwt.day_seconds ->
    Jwt.getUserIdFromToken K secret t (Some (cookie_header first (rest ++ [("auth-token", tok)]))) = Some id /\
    Jwt.getUserIdFromTokenSync K secret t (Some (cookie_header first (rest ++ [("auth-token", tok)]))) = Some id /\
    Jwt.getToken K secret t (Some (cookie_header first (rest ++ [("auth-token", tok)])))
      = Some (Jwt.issued (Jwt.mkClaims id em nm) t0).
Proof.
  intros Hs HF.
  destruct (JwtFacts.decode_sign K HK secret t0 (Jwt.mkClaims id em nm) Hs) as (tok & Hsign & Hchars & _).
  assert (Hne : tok <> EmptyString).
  { intros ->; rewrite (JwtFacts.sign_shape K secret t0 _ Hs) in Hsign; injection Hsign.
    destruct (Jwt.enc_header K "HS256"); discriminate. }
  exists tok; split; [exact Hsign|]; intros t Ht.
  assert (HF' : well_formed (first :: rest ++ [("auth-token", tok)])).
  { unfold well_formed in *; change (first :: rest ++ [("auth-token", tok)])%list
      with ((first :: rest) ++ [("auth-token", tok)])%list.
    apply Forall_app; split; [exact HF|].
    constructor; [split; [reflexivity|apply tok_cookie_token, Hchars]|constructor]. }
  assert (Hreq := token_of_header _ _ HF').
  change (first :: rest ++ [("auth-token", tok)])%list
    with ((first :: rest) ++ [("auth-token", tok)])%list in Hreq.
  rewrite last_value_snoc in Hreq.
  destruct (String.eqb_spec tok EmptyString) as [E|_]; [contradiction|].
  destruct (JwtFacts.verify_issued K HK secret t0 _ tok t Hs Hsign) as [V1 V2].
  replace (Jwt.epoch t0 + Jwt.day_seconds <=? Jwt.epoch t) with false in V1, V2
    by (symmetry; apply Z.leb_gt; exact Ht).
  unfold Jwt.getUserIdFromToken, Jwt.getUserIdFromTokenSync, Jwt.getToken.
  rewrite Hreq, V1, V2; repeat split.
Qed.

End SessionCookieFacts.

(** ** What the middleware's redirects do *)
Module RedirectFacts.
Import Middleware.

(** X6. Every redirect of the middleware goes to [/login] and happens on
    a protected, non-public path only. It deletes no cookie and carries
    [redirect=<path>] when the [auth-token] cookie is missing or empty;
    it deletes [auth-token] and carries no parameter exactly when a
    non-empty [auth-token] cookie fails verification. *)
Theorem redirect_cases K secret now p cookies loc del :
  middleware K secret now p cookies = Redirect loc del ->
  url_path loc = "/login" /\
  isPublicRoute publicRoutes p = false /\ isProtectedRoute protectedRoutes p = true /\
  ((del = [] /\ url_search loc = [("redirect", p)] /\
    (cookies "auth-token" = None \/ cookies "auth-token" = Some EmptyString)) \/
   (del = ["auth-token"] /\ url_search loc = [] /\
    exists t, cookies "auth-token" = Some t /\ t <> EmptyString /\
              Jwt.jose_verify K secret now t = None)).
Proof.
  unfold middleware, middleware_with.
  destruct (isPublicRoute publicRoutes p) eqn:Hp; [discriminate|].
  destruct (isProtectedRoute protectedRoutes p) eqn:Hq; [|discriminate]; cbn [negb].
  destruct (cookies "auth-token") as [t|] eqn:Hc.
  - destruct (String.eqb_spec t EmptyString) as [->|Hne].
    + intros H; injection H as <- <-.
      repeat split; left; repeat split; right; reflexivity.
    + destruct (Jwt.jose_verify K secret now t) eqn:Hv; [discriminate|].
      intros H; injection H as <- <-.
      repeat split; right; repeat split; exists t; auto.
  - intros H; injection H as <- <-.
    repeat split; left; repeat split; left; reflexivity.
Qed.

End RedirectFacts.

(** ** The login and register handlers, further *)
Module AuthRouteFacts.
Import Api.

Section Handlers.
Variable is_email : string -> bool.
Variable find_user : string -> M (option User).
Variable bcrypt_compare : string -> string -> bool.
Variable bcrypt_hash : string -> Z -> M string.
Variable gen_salt : Z -> string.
Variable create_user : string -> string -> M User.
Variable create_aspNetUser : AspNetUser -> M AspNetUser.
Variable K : Jwt.Codec.
Variable JWT_SECRET NODE_ENV : string.
Variable now_ms : Z.

Local Abbreviation login :=
  (login_POST is_email find_user bcrypt_compare K JWT_SECRET NODE_ENV now_ms).
Local Abbreviation register :=
  (register_POST is_email find_user bcrypt_hash gen_salt create_user create_aspNetUser).

(** X7. The login lookup is by the lower-cased email: two well-formed
    bodies with the same password whose emails differ only in ASCII case
    get the same response. *)
Theorem login_email_case_insensitive b1 b2 e1 e2 password :
  loginSchema_parse is_email b1 = inr (e1, password) ->
  loginSchema_parse is_email b2 = inr (e2, password) ->
  JS.toLowerCase e1 = JS.toLowerCase e2 ->
  login (Some b1) = login (Some b2).
Proof.
  intros H1 H2 He; unfold login_POST, run, bind, of_option, ret.
  rewrite H1, H2, He; reflexivity.
Qed.

(** X8. With an empty [JWT_SECRET] no login succeeds: no response has
    status 200, and a correct email and password get 500
    ([jwt.sign] throws). *)
Theorem login_needs_secret :
  JWT_SECRET = EmptyString ->
  (forall ob, status (login ob) <> 200) /\
  (forall b email password u a,
   loginSchema_parse is_email b = inr (email, password) ->
   find_user (JS.toLowerCase email) = inr (Some u) -> u_aspNetUser u = Some a ->
   bcrypt_compare password (match a_passwordHash a with Some h => h | None => EmptyString end) = true ->
   login (Some b) = mkResponse 500 (JObj [("error", JStr "Internal server error")]) []).
Proof.
  intros Hs; split.
  - intros ob; unfold login_POST, run, bind, of_option, ret, throw.
    destruct ob as [b|]; [|discriminate].
    destruct (loginSchema_parse is_email b) as [e|[email password]];
      [destruct e; discriminate|].
    destruct (find_user (JS.toLowerCase email)) as [e|[u|]]; [destruct e; discriminate| |discriminate].
    destruct (u_aspNetUser u) as [a|]; [|discriminate].
    destruct (negb _); [discriminate|].
    unfold Jwt.sign; rewrite Hs; discriminate.
  - intros b email password u a Hp Hf Ha Hc.
    unfold login_POST, run, bind, of_option, ret, throw.
    rewrite Hp, Hf, Ha, Hc; cbn [negb].
    unfold Jwt.sign; rewrite Hs; reflexivity.
Qed.

(** X9. Login validates before any lookup: a body that is not JSON gets
    500; an object whose [email] is not an email or whose [password] is
    empty gets 400 with one zod issue per failing field (email first),
    whatever the user table holds. *)
Theorem login_validation fs email password :
  login None = mkResponse 500 (JObj [("error", JStr "Internal server error")]) [] /\
  (field "email" (JObj fs) = Some (JStr email) -> field "password" (JObj fs) = Some (JStr password) ->
   is_email email = false \/ password = EmptyString ->
   login (Some (JObj fs)) = handle (ZodError
     ((if is_email email then [] else [mkIssue "email" "Invalid email address"]) ++
      (if String.eqb password EmptyString then [mkIssue "password" "Password is required"] else []))%list)).
Proof.
  split; [reflexivity|].
  intros He Hp Hbad; unfold login_POST, run, bind, of_option, ret, throw.
  unfold loginSchema_parse, string_field; rewrite He, Hp.
  cbn -[min_len email_check]; unfold email_check, min_len.
  destruct (is_email email); destruct password as [|c r]; cbn; try reflexivity.
  destruct Hbad as [H|H]; discriminate.
Qed.

(** X10. Register validates before any lookup or write: for an object
    with string fields [fullName], [email] and [password], a name shorter
    than 2 characters, a non-email or a password shorter than 6 characters
    gets 400 listing one issue per failing field, in that order, whatever
    the lookup, hashing and creation do. *)
Theorem register_validation fs fullName email password :
  field "fullName" (JObj fs) = Some (JStr fullName) ->
  field "email" (JObj fs) = Some (JStr email) ->
  field "password" (JObj fs) = Some (JStr password) ->
  (String.length fullName < 2 \/ is_email email = false \/ String.length password < 6)%nat ->
  forall find_user' bcrypt_hash' gen_salt' create_user' create_aspNetUser',
  register_POST is_email find_user' bcrypt_hash' gen_salt' create_user' create_aspNetUser'
    (Some (JObj fs)) = handle (ZodError
     ((if (2 <=? String.length fullName)%nat then []
       else [mkIssue "fullName" "Full name must be at least 2 characters"]) ++
      (if is_email email then [] else [mkIssue "email" "Invalid email address"]) ++
      (if (6 <=? String.length password)%nat then []
       else [mkIssue "password" "Password must be at least 6 characters"]))%list).
Proof.
  intros Hf He Hp Hbad fu bh gs cu ca.
  unfold register_POST, run, bind, of_option, ret, throw.
  unfold registerSchema_parse, string_field; rewrite Hf, He, Hp.
  cbn -[min_len email_check Nat.leb]; unfold email_check, min_len.
  destruct (2 <=? String.length fullName)%nat eqn:L1;
  destruct (is_email email) eqn:L2;
  destruct (6 <=? String.length password)%nat eqn:L3; cbn; try reflexivity.
  apply Nat.leb_le in L1, L3; lia.
Qed.

(** X11. Register refuses an email whose lower-cased form is already
    taken (so [Alice@Example.com] when [alice@example.com] exists) with
    409, before hashing or writing anything. *)
Theorem register_rejects_existing_email b fullName email password u :
  registerSchema_parse is_email b = inr (fullName, email, password) ->
  find_user (JS.toLowerCase email) = inr (Some u) ->
  forall bcrypt_hash' gen_salt' create_user' create_aspNetUser',
  register_POST is_email find_user bcrypt_hash' gen_salt' create_user' create_aspNetUser' (Some b) =
    mkResponse 409 (JObj [("error", JStr "User with this email already exists")]) [].
Proof.
  intros Hp Hf bh gs cu ca; unfold register_POST, run, bind, of_option, ret.
  rewrite Hp, Hf; reflexivity.
Qed.

(** X12. A 201 registration has, in this order: found no user with the
    lower-cased email, hashed the password with 12 salt rounds, created
    the user with the lower-cased email and [fullName] as name, and
    created its credential record with the user's id, the lower-cased
    email as [userName] and [email], their upper-cased forms as the
    normalised ones, the bcrypt hash (never the password) as
    [passwordHash], [genSaltSync(8)] as security stamp, email and two-factor
    unconfirmed, lockout enabled and no failed attempts. *)
Theorem register_persists_hashed_credentials ob :
  status (register ob) = 201 ->
  exists b fullName email password passwordHash u a,
    ob = Some b /\ registerSchema_parse is_email b = inr (fullName, email, password) /\
    find_user (JS.toLowerCase email) = inr None /\
    bcrypt_hash password 12 = inr passwordHash /\
    create_user (JS.toLowerCase email) fullName = inr u /\
    create_aspNetUser
      (mkAspNetUser (u_id u) (JS.toLowerCase email) (toUpperCase email)
         (JS.toLowerCase email) (toUpperCase email) (Some passwordHash)
         (Some (gen_salt 8)) false false true 0) = inr a /\
    register ob = mkResponse 201
      (JObj [("message", JStr "User registered successfully"); ("user", user_json u)]) [].
Proof.
  unfold register_POST, run, bind, of_option, ret, throw.
  destruct ob as [b|]; [|discriminate].
  destruct (registerSchema_parse is_email b) as [e|[[fullName email] password]] eqn:Hp;
    [destruct e; discriminate|].
  destruct (find_user (JS.toLowerCase email)) as [e|[u|]] eqn:Hf;
    [destruct e; discriminate|discriminate|].
  destruct (bcrypt_hash password 12) as [e|h] eqn:Hh; [destruct e; discriminate|].
  destruct (create_user (JS.toLowerCase email) fullName) as [e|u] eqn:Hc; [destruct e; discriminate|].
  destruct (create_aspNetUser _) as [e|a] eqn:Ha; [destruct e; discriminate|].
  intros _; exists b, fullName, email, password, h, u, a; repeat split; assumption.
Qed.

End Handlers.
End AuthRouteFacts.

(** ** Route handlers behind the extractors *)
Module RouteFacts.
Import Api Routes.

(** No payload this application signs has a [sub] claim. *)
Lemma sub_undefined p : sub p = None.
Proof.
  destruct p as [[u e n] i x nb];
    destruct n, i as [[]|], x as [[]|], nb as [[]|]; reflexivity.
Qed.

Section Handlers.
Variable K : Jwt.Codec.
Variable JWT_SECRET : string.
Variable now_ms : Z.
Variable find_user_by_id : option string -> M (option Json).
Variable find_task_userProjects : string -> option string -> M (option (list Json)).
Variable find_comments : string -> M Json.
Variable find_task_workSpaceUsers : string -> string -> M (option (list Json)).
Variable update_task : string -> Z -> string -> Z -> M Json.

Local Abbreviation verify := (verify_GET K JWT_SECRET now_ms find_user_by_id).
Local Abbreviation comments := (comments_GET K JWT_SECRET now_ms find_task_userProjects find_comments).
Local Abbreviation patch := (task_status_PATCH K JWT_SECRET now_ms find_task_workSpaceUsers update_task).

Lemma verify_GET_signed_in h p :
  Jwt.getToken K JWT_SECRET now_ms h = Some p ->
  verify h = match find_user_by_id None with
             | inl _ => json_error 500 "Internal server error"
             | inr None => json_error 404 "User not found"
             | inr (Some u) => mkResponse 200 (JObj [("user", u)]) []
             end.
Proof.
  intros H; unfold verify_GET, run500, bind, ret; rewrite H, sub_undefined.
  destruct (find_user_by_id None) as [e|[u|]]; reflexivity.
Qed.

Lemma verify_GET_signed_out h :
  Jwt.getToken K JWT_SECRET now_ms h = None -> verify h = json_error 401 "Unauthorized".
Proof. intros H; unfold verify_GET, run500, ret; rewrite H; reflexivity. Qed.

(** X13. [GET /api/auth/verify] answers 401 without a verifying token;
    with one it looks the user up by [token.sub], which no token of this
    application carries, so the lookup is by [id: undefined] and every
    signed-in request gets the same answer, whoever it belongs to: 500
    if the lookup throws, 404 if it finds nothing, 200 with the found row
    otherwise. *)
Theorem verify_GET_ignores_identity :
  (forall h, Jwt.getToken K JWT_SECRET now_ms h = None -> verify h = json_error 401 "Unauthorized") /\
  (forall h p, Jwt.getToken K JWT_SECRET now_ms h = Some p ->
   verify h = match find_user_by_id None with
              | inl _ => json_error 500 "Internal server error"
              | inr None => json_error 404 "User not found"
              | inr (Some u) => mkResponse 200 (JObj [("user", u)]) []
              end) /\
  (forall h1 h2 p1 p2, Jwt.getToken K JWT_SECRET now_ms h1 = Some p1 ->
   Jwt.getToken K JWT_SECRET now_ms h2 = Some p2 -> verify h1 = verify h2).
Proof.
  split; [exact verify_GET_signed_out|split; [exact verify_GET_signed_in|]].
  intros h1 h2 p1 p2 H1 H2; rewrite (verify_GET_signed_in _ _ H1), (verify_GET_signed_in _ _ H2).
  reflexivity.
Qed.

(** X14. [GET /api/tasks/[taskId]/comments] answers 401 without a
    verifying token; with one, the access check filters the project's
    members by [token.sub], i.e. by [userId: undefined], so the caller's
    identity plays no part: every signed-in request for a task gets the
    same answer (404 if the task is missing, 403 if the filtered member
    list is empty, the comments otherwise). *)
Theorem comments_GET_ignores_identity :
  (forall h t, Jwt.getToken K JWT_SECRET now_ms h = None -> comments h t = json_error 401 "Unauthorized") /\
  (forall h p t, Jwt.getToken K JWT_SECRET now_ms h = Some p ->
   comments h t =
     match find_task_userProjects t None with
     | inl _ => json_error 500 "Internal server error"
     | inr None => json_error 404 "Task not found"
     | inr (Some userProjects) =>
         if (length userProjects =? 0)%nat then json_error 403 "Access denied to this task"
         else match find_comments t with
              | inl _ => json_error 500 "Internal server error"
              | inr c => mkResponse 200 c []
              end
     end) /\
  (forall h1 h2 p1 p2 t, Jwt.getToken K JWT_SECRET now_ms h1 = Some p1 ->
   Jwt.getToken K JWT_SECRET now_ms h2 = Some p2 -> comments h1 t = comments h2 t).
Proof.
  assert (S : forall h p t, Jwt.getToken K JWT_SECRET now_ms h = Some p ->
   comments h t =
     match find_task_userProjects t None with
     | inl _ => json_error 500 "Internal server error"
     | inr None => json_error 404 "Task not found"
     | inr (Some userProjects) =>
         if (length userProjects =? 0)%nat then json_error 403 "Access denied to this task"
         else match find_comments t with
              | inl _ => json_error 500 "Internal server error"
              | inr c => mkResponse 200 c []
              end
     end).
  { intros h p t H; unfold comments_GET, run500, bind, ret; rewrite H, sub_undefined.
    destruct (find_task_userProjects t None) as [e|[ups|]]; [reflexivity| |reflexivity].
    destruct (length ups =? 0)%nat; [reflexivity|].
    destruct (find_comments t); reflexivity. }
  split; [|split; [exact S|]].
  - intros h t H; unfold comments_GET, run500, ret; rewrite H; reflexivity.
  - intros h1 h2 p1 p2 t H1 H2; rewrite (S _ _ _ H1), (S _ _ _ H2); reflexivity.
Qed.

Lemma updateTaskStatusSchema_parse_ok b s :
  updateTaskStatusSchema_parse b = inr s -> field "status" b = Some (JNum s) /\ 0 <= s <= 2.
Proof.
  unfold updateTaskStatusSchema_parse, ret, throw.
  destruct b as [| | | | | |fs]; try discriminate.
  destruct (field "status" (JObj fs)) as [[| | z | | | |]|]; try discriminate.
  destruct (z <? 0) eqn:L0; [discriminate|].
  destruct (2 <? z) eqn:L2; [discriminate|].
  intros H; injection H as <-; apply Z.ltb_ge in L0, L2; split; [reflexivity|lia].
Qed.

(** X16. A 200 from the task-status [PATCH] means: the cookie gave a
    non-empty user id, the task exists with at least one active workspace
    membership of that user, the body's [status] is a number in [0..2],
    and the task was updated with that status and with the caller's id
    as [lastEditedById]; the response is the updated task. *)
Theorem task_status_PATCH_success h tid ob :
  status (patch h tid ob) = 200 ->
  exists userId workSpaceUsers b s updatedTask,
    Jwt.getUserIdFromTokenSync K JWT_SECRET now_ms h = Some userId /\ userId <> EmptyString /\
    find_task_workSpaceUsers tid userId = inr (Some workSpaceUsers) /\ workSpaceUsers <> [] /\
    ob = Some b /\ field "status" b = Some (JNum s) /\ 0 <= s <= 2 /\
    update_task tid s userId now_ms = inr updatedTask /\
    patch h tid ob = mkResponse 200 updatedTask [].
Proof.
  unfold task_status_PATCH, checkTaskAccess, run, bind, ret, throw, of_option.
  destruct (Jwt.getUserIdFromTokenSync K JWT_SECRET now_ms h) as [u|] eqn:Hu; [|discriminate].
  destruct (String.eqb_spec u EmptyString) as [_|Hne]; [discriminate|].
  destruct (find_task_workSpaceUsers tid u) as [e|[ws|]] eqn:Hf;
    [destruct e; cbn; intros H; discriminate H| |discriminate].
  destruct (0 <? length ws)%nat eqn:Hl; [|discriminate]; cbn [negb].
  destruct ob as [b|]; [|discriminate]; unfold ret; cbv beta iota.
  destruct (updateTaskStatusSchema_parse b) as [e|s] eqn:Hp; [destruct e; cbn; intros H; discriminate H|].
  destruct (update_task tid s u now_ms) as [e|j] eqn:Ht; [destruct e; cbn; intros H; discriminate H|].
  intros _; destruct (updateTaskStatusSchema_parse_ok _ _ Hp) as [Hs Hr].
  exists u, ws, b, s, j; repeat split; try assumption; try lia.
  intros ->; discriminate Hl.
Qed.

(** X17. For a caller with a non-empty user id, the task-status [PATCH]
    answers 403 both when the task does not exist and when the caller has
    no active membership in its workspace; with access, a body whose
    [status] is an integer below 0 or above 2 gets 400 with zod's bound
    message alone, and one whose [status] is a number that is not an
    integer gets 400 with zod's [.int()] message followed by the bound
    message it breaks, if any; no update is made. *)
Theorem task_status_PATCH_rejections h tid ob userId :
  Jwt.getUserIdFromTokenSync K JWT_SECRET now_ms h = Some userId -> userId <> EmptyString ->
  ((find_task_workSpaceUsers tid userId = inr None \/
    find_task_workSpaceUsers tid userId = inr (Some [])) ->
   patch h tid ob = json_error 403 "Access denied to this task") /\
  (forall ws fs s, find_task_workSpaceUsers tid userId = inr (Some ws) -> ws <> [] ->
   ob = Some (JObj fs) -> field "status" (JObj fs) = Some (JNum s) -> (s < 0 \/ 2 < s) ->
   patch h tid ob = handle (ZodError [mkIssue "status"
     (if s <? 0 then "Number must be greater than or equal to 0"
      else "Number must be less than or equal to 2")])) /\
  (forall ws fs n d, find_task_workSpaceUsers tid userId = inr (Some ws) -> ws <> [] ->
   ob = Some (JObj fs) -> field "status" (JObj fs) = Some (JFrac n d) ->
   patch h tid ob = handle (ZodError
     ([mkIssue "status" "Expected integer, received float"]
      ++ (if n <? 0 then [mkIssue "status" "Number must be greater than or equal to 0"] else [])
      ++ (if 2 * Zpos d <? n then [mkIssue "status" "Number must be less than or equal to 2"]
          else []))%list)).
Proof.
  intros Hu Hne.
  unfold task_status_PATCH, checkTaskAccess, run, bind, ret, throw, of_option.
  rewrite Hu; destruct (String.eqb_spec userId EmptyString) as [E|_]; [contradiction|].
  split; [|split].
  - intros [Hf|Hf]; rewrite Hf; reflexivity.
  - intros ws fs s Hf Hws -> Hs Hr; rewrite Hf.
    destruct ws as [|w ws]; [contradiction|]; cbn [length Nat.ltb Nat.leb negb].
    unfold updateTaskStatusSchema_parse, ret, throw; rewrite Hs.
    destruct (s <? 0) eqn:L0; [reflexivity|].
    destruct (2 <? s) eqn:L2; [reflexivity|].
    apply Z.ltb_ge in L0, L2; lia.
  - intros ws fs n d Hf Hws -> Hs; rewrite Hf.
    destruct ws as [|w ws]; [contradiction|]; cbn [length Nat.ltb Nat.leb negb].
    unfold updateTaskStatusSchema_parse, ret, throw; rewrite Hs; reflexivity.
Qed.

End Handlers.
End RouteFacts.

(** ** The session context *)
Module SessionFacts.
Import Api Session.

(** X18. After [verifySession], [isLoading] is [false] whatever the
    answer; the user is set only from a 2xx answer whose body has a
    truthy [user], and then to exactly that value; every other outcome
    (an error status, no answer, no or a falsy [user]) leaves [null]. *)
Theorem verifySession_outcome r s :
  isLoading (verifySession r s) = false /\
  (forall u, user (verifySession r s) = Some u <->
   exists resp, r = Some resp /\ 200 <= status resp < 300 /\
     field "user" (body resp) = Some u /\ truthy u = true).
Proof.
  split; [reflexivity|]; intros u; unfold verifySession, axios_get; cbn [user].
  split.
  - destruct r as [resp|]; [|discriminate].
    destruct ((200 <=? status resp) && (status resp <? 300)) eqn:St; [|discriminate].
    destruct (field "user" (body resp)) as [v|] eqn:F; [|discriminate].
    destruct (truthy v) eqn:T; [|discriminate].
    intros H; injection H as <-.
    apply andb_prop in St as [S1 S2]; apply Z.leb_le in S1; apply Z.ltb_lt in S2.
    exists resp; repeat split; auto.
  - intros (resp & -> & [S1 S2] & F & T).
    apply Z.leb_le in S1; apply Z.ltb_lt in S2; rewrite S1, S2; cbn [andb].
    rewrite F, T; reflexivity.
Qed.

(** X19. The provider mounted over [GET /api/auth/verify]: a browser
    without a verifying session cookie ends with [user = null] (the 401
    rejects), and all browsers with a verifying cookie end in the same
    state, whoever is signed in, since the route ignores the token's
    identity. *)
Theorem mount_ignores_identity K secret now find_user_by_id :
  (forall h, Jwt.getToken K secret now h = None ->
   mount K secret now find_user_by_id h = mkState None false) /\
  (forall h1 h2 p1 p2, Jwt.getToken K secret now h1 = Some p1 -> Jwt.getToken K secret now h2 = Some p2 ->
   mount K secret now find_user_by_id h1 = mount K secret now find_user_by_id h2).
Proof.
  split.
  - intros h H; unfold mount; rewrite (RouteFacts.verify_GET_signed_out K secret now find_user_by_id h H).
    reflexivity.
  - intros h1 h2 p1 p2 H1 H2; unfold mount.
    rewrite (RouteFacts.verify_GET_signed_in K secret now find_user_by_id h1 p1 H1),
            (RouteFacts.verify_GET_signed_in K secret now find_user_by_id h2 p2 H2).
    reflexivity.
Qed.

End SessionFacts.

(** ** The comments [POST] handler *)
Module CommentPostFacts.
Import Api Routes.

Section Handlers.
Variable K : Jwt.Codec.
Variable JWT_SECRET : string.
Variable now_ms : Z.
Variable find_task_userProjects : string -> option string -> M (option (list Json)).
Variable create_comment : string -> option string -> string -> M Json.

Local Abbreviation post := (comments_POST K JWT_SECRET now_ms find_task_userProjects create_comment).

(** X20. A comment is created (201) only for a valid token, an existing
    task with a non-empty [userProjects] list for the lookup by the
    undefined [token.sub], and a body with a non-empty string [body]; the
    comment is created with [userId: undefined], whoever is signed in. *)
Theorem comments_POST_created h t ob :
  status (post h t ob) = 201 ->
  exists p ups b text comment,
    Jwt.getToken K JWT_SECRET now_ms h = Some p /\
    find_task_userProjects t None = inr (Some ups) /\ ups <> [] /\
    ob = Some b /\ field "body" b = Some (JStr text) /\ text <> EmptyString /\
    create_comment t None text = inr comment /\
    post h t ob = mkResponse 201 comment [].
Proof.
  intros H; unfold comments_POST, comment_catch, bind, ret, throw, of_option in *.
  destruct (Jwt.getToken K JWT_SECRET now_ms h) as [p|] eqn:Ht; [|discriminate H].
  rewrite RouteFacts.sub_undefined in *.
  destruct (find_task_userProjects t None) as [e|[ups|]] eqn:Hf;
    [destruct e; discriminate H | | discriminate H].
  destruct (length ups =? 0)%nat eqn:Hl; [discriminate H|].
  destruct ob as [b|]; [|discriminate H].
  unfold commentSchema_parse, string_field, min_len in *.
  destruct b as [| | | | | |fs]; cbn -[field] in H; try discriminate H.
  destruct (field "body" (JObj fs)) as [[| | | |text| |]|] eqn:Hb; cbn in H; try discriminate H.
  destruct (String.length text) as [|n] eqn:Hlen; cbn in H; [discriminate H|].
  cbn -[field]; rewrite Hb; cbn; rewrite Hlen; cbn.
  destruct (create_comment t None text) as [[]|comment] eqn:Hc; try discriminate H.
  exists p, ups, (JObj fs), text, comment.
  repeat split; try reflexivity; try assumption.
  - intros ->; discriminate Hl.
  - intros ->; discriminate Hlen.
Qed.

(** X21. Once the access check has passed, a body that is not JSON
    answers 500, and a JSON object whose [body] is the empty string or is
    missing answers 400 ['Validation error'] with the zod issue for
    [body]; no comment is created in these cases. *)
Theorem comments_POST_body_errors h t p ups :
  Jwt.getToken K JWT_SECRET now_ms h = Some p ->
  find_task_userProjects t None = inr (Some ups) -> ups <> [] ->
  post h t None = json_error 500 "Internal server error" /\
  (forall fs, field "body" (JObj fs) = Some (JStr EmptyString) ->
   post h t (Some (JObj fs)) =
     mkResponse 400 (JObj [("error", JStr "Validation error");
       ("details", issues_json [mkIssue "body" "Comment body is required"])]) []) /\
  (forall fs, field "body" (JObj fs) = None ->
   post h t (Some (JObj fs)) =
     mkResponse 400 (JObj [("error", JStr "Validation error");
       ("details", issues_json [mkIssue "body" "Required"])]) []).
Proof.
  intros Ht Hf Hne.
  assert (Hl : (length ups =? 0)%nat = false)
    by (destruct ups; [contradiction|reflexivity]).
  unfold comments_POST, comment_catch, bind, ret, throw, of_option.
  rewrite Ht, RouteFacts.sub_undefined, Hf, Hl.
  split; [reflexivity|].
  unfold commentSchema_parse, string_field, min_len.
  split; intros fs Hb; cbn -[field]; rewrite Hb; reflexivity.
Qed.

End Handlers.
End CommentPostFacts.

(** ** Concrete instances of the further properties *)
Module ExtraWitnesses.
Import Api.

Local Abbreviation auth_cookie tok := (Some ("auth-token=" ++ tok)).

(** X1 at [theme=dark; auth-token=abc; auth-token=xyz]: the last
    [auth-token] wins. *)
Lemma cookie_header_last_value_wins_witness :
  CookieHeader.well_formed [("theme", "dark"); ("auth-token", "abc"); ("auth-token", "xyz")] /\
  Jwt.token_of_request
    (Some (CookieHeader.cookie_header ("theme", "dark") [("auth-token", "abc"); ("auth-token", "xyz")]))
  = Some "xyz".
Proof.
  assert (H : CookieHeader.well_formed [("theme", "dark"); ("auth-token", "abc"); ("auth-token", "xyz")])
    by (unfold CookieHeader.well_formed; repeat constructor).
  split; [exact H|].
  rewrite (CookieHeaderFacts.cookie_header_last_value_wins _ _ H); reflexivity.
Defined.

(** X2 with [theme=dark; lang=en] before the session cookie. *)
Lemma session_cookie_among_others_witness :
  "k3y" <> EmptyString /\ CookieHeader.well_formed [("theme", "dark"); ("lang", "en")] /\
  exists tok, Jwt.createToken Toy.codec "k3y" 0 "u1" "a@b.c" None = Some tok /\
    Jwt.getUserIdFromToken Toy.codec "k3y" 1000
      (Some (CookieHeader.cookie_header ("theme", "dark") [("lang", "en"); ("auth-token", tok)]))
    = Some "u1".
Proof.
  assert (Hs : "k3y" <> EmptyString) by discriminate.
  assert (Hw : CookieHeader.well_formed [("theme", "dark"); ("lang", "en")])
    by (unfold CookieHeader.well_formed; repeat constructor).
  split; [exact Hs|split; [exact Hw|]].
  destruct (SessionCookieFacts.session_cookie_among_others Toy.codec ToyFacts.codec_laws
              "k3y" 0 "u1" "a@b.c" None ("theme", "dark") [("lang", "en")] Hs Hw) as (tok & H1 & H2).
  exists tok; split; [exact H1|].
  apply (H2 1000); vm_compute; reflexivity.
Defined.

(** X6 at [/dashboard] without a cookie. *)
Lemma redirect_cases_witness :
  Middleware.middleware Toy.codec "k3y" 0 "/dashboard" (fun _ => None)
  = Middleware.Redirect (Middleware.mkUrl "/login" [("redirect", "/dashboard")]) [] /\
  Middleware.url_path (Middleware.mkUrl "/login" [("redirect", "/dashboard")]) = "/login".
Proof.
  assert (H : Middleware.middleware Toy.codec "k3y" 0 "/dashboard" (fun _ => None)
              = Middleware.Redirect (Middleware.mkUrl "/login" [("redirect", "/dashboard")]) [])
    by reflexivity.
  split; [exact H|].
  exact (proj1 (RedirectFacts.redirect_cases _ _ _ _ _ _ _ H)).
Defined.

(** X7 at [ALICE@example.com] and [alice@example.com]. *)
Lemma login_email_case_insensitive_witness :
  loginSchema_parse Demo.is_email (Demo.login_body "ALICE@example.com" "pw123456")
    = inr ("ALICE@example.com", "pw123456") /\
  status (Demo.login (Some (Demo.login_body "alice@example.com" "pw123456"))) = 200 /\
  Demo.login (Some (Demo.login_body "ALICE@example.com" "pw123456"))
  = Demo.login (Some (Demo.login_body "alice@example.com" "pw123456")).
Proof.
  split; [reflexivity|split; [vm_compute; reflexivity|]].
  apply (AuthRouteFacts.login_email_case_insensitive Demo.is_email Demo.find_user
           Demo.bcrypt_compare Toy.codec "k3y" "production" 0 _ _
           "ALICE@example.com" "alice@example.com" "pw123456"); reflexivity.
Defined.

(** X8: Alice's correct password with an empty secret. *)
Lemma login_needs_secret_witness :
  login_POST Demo.is_email Demo.find_user Demo.bcrypt_compare Toy.codec EmptyString "production" 0
    (Some (Demo.login_body "alice@example.com" "pw123456"))
  = mkResponse 500 (JObj [("error", JStr "Internal server error")]) [].
Proof.
  apply (proj2 (AuthRouteFacts.login_needs_secret Demo.is_email Demo.find_user Demo.bcrypt_compare
           Toy.codec EmptyString "production" 0 eq_refl)
           _ "alice@example.com" "pw123456" Demo.alice Demo.alice_credentials); reflexivity.
Defined.

(** X10 at a one-letter name, an address without [@] and a 3-character
    password: three issues. *)
Lemma register_validation_witness :
  Demo.register (Some (JObj [("fullName", JStr "A"); ("email", JStr "bob"); ("password", JStr "123")]))
  = mkResponse 400 (JObj [("error", JStr "Validation failed");
      ("details", issues_json
         [mkIssue "fullName" "Full name must be at least 2 characters";
          mkIssue "email" "Invalid email address";
          mkIssue "password" "Password must be at least 6 characters"])]) [].
Proof.
  apply (AuthRouteFacts.register_validation Demo.is_email _ "A" "bob" "123"); try reflexivity.
  left; cbn; lia.
Defined.

(** X11: [Alice@Example.com] when [alice@example.com] exists. *)
Lemma register_rejects_existing_email_witness :
  Demo.register (Some (JObj [("fullName", JStr "Alice"); ("email", JStr "Alice@Example.com");
                            ("password", JStr "secret1")]))
  = mkResponse 409 (JObj [("error", JStr "User with this email already exists")]) [].
Proof.
  apply (AuthRouteFacts.register_rejects_existing_email Demo.is_email Demo.find_user _
           "Alice" "Alice@Example.com" "secret1" Demo.alice); reflexivity.
Defined.

(** X12 at a new user [Bob@Example.com]. *)
Lemma register_persists_hashed_credentials_witness :
  status (Demo.register (Some (JObj [("fullName", JStr "Bob"); ("email", JStr "Bob@Example.com");
                                     ("password", JStr "secret1")]))) = 201 /\
  exists passwordHash, Demo.bcrypt_hash "secret1" 12 = inr passwordHash.
Proof.
  assert (H : status (Demo.register (Some (JObj [("fullName", JStr "Bob"); ("email", JStr "Bob@Example.com");
                                               ("password", JStr "secret1")]))) = 201)
    by (vm_compute; reflexivity).
  split; [exact H|].
  destruct (AuthRouteFacts.register_persists_hashed_credentials Demo.is_email Demo.find_user
              Demo.bcrypt_hash Demo.gen_salt Demo.create_user Demo.create_aspNetUser _ H)
    as (b & fullName & email & password & passwordHash & u & a & Hb & Hp & _ & Hh & _).
  injection Hb as <-; vm_compute in Hp; injection Hp as _ <- <-.
  exists passwordHash; exact Hh.
Defined.

(** X16 at a member of the task's workspace setting status 2. *)
Lemma task_status_PATCH_success_witness :
  exists tok, Jwt.createToken Toy.codec "k3y" 0 "u1" "a@b.c" None = Some tok /\
    status (Routes.task_status_PATCH Toy.codec "k3y" 1000
              (fun _ _ => ret (Some [JNull])) (fun _ s u _ => ret (JArr [JNum s; JStr u]))
              (auth_cookie tok) "t1" (Some (JObj [("status", JNum 2)]))) = 200 /\
    exists userId, Jwt.getUserIdFromTokenSync Toy.codec "k3y" 1000 (auth_cookie tok) = Some userId.
Proof.
  eexists; split; [reflexivity|].
  assert (H : status (Routes.task_status_PATCH Toy.codec "k3y" 1000
              (fun _ _ => ret (Some [JNull])) (fun _ s u _ => ret (JArr [JNum s; JStr u]))
              (auth_cookie (Jwt.enc_header Toy.codec "HS256" ++ "." ++
                 Jwt.enc_payload Toy.codec (Jwt.issued (Jwt.mkClaims "u1" "a@b.c" None) 0) ++ "." ++
                 Jwt.hs256 Toy.codec "k3y"
                   (Jwt.enc_header Toy.codec "HS256" ++ "." ++
                    Jwt.enc_payload Toy.codec (Jwt.issued (Jwt.mkClaims "u1" "a@b.c" None) 0))))
              "t1" (Some (JObj [("status", JNum 2)]))) = 200) by (vm_compute; reflexivity).
  split; [exact H|].
  destruct (RouteFacts.task_status_PATCH_success _ _ _ _ _ _ _ _ H) as (userId & _ & _ & _ & _ & Hu & _).
  exists userId; exact Hu.
Defined.

(** X17: a signed-in caller on a task that does not exist, and a member
    of the task's workspace sending [status: 2.5]. *)
Lemma task_status_PATCH_rejections_witness :
  exists tok, Jwt.createToken Toy.codec "k3y" 0 "u1" "a@b.c" None = Some tok /\
    Routes.task_status_PATCH Toy.codec "k3y" 1000 (fun _ _ => ret None) (fun _ _ _ _ => ret JNull)
      (auth_cookie tok) "t1" (Some (JObj [("status", JNum 1)]))
    = Routes.json_error 403 "Access denied to this task" /\
    Routes.task_status_PATCH Toy.codec "k3y" 1000 (fun _ _ => ret (Some [JNull]))
      (fun _ _ _ _ => ret JNull) (auth_cookie tok) "t1" (Some (JObj [("status", JFrac 5 2)]))
    = handle (ZodError [mkIssue "status" "Expected integer, received float";
                        mkIssue "status" "Number must be less than or equal to 2"]).
Proof.
  eexists; split; [reflexivity|split].
  - refine (proj1 (RouteFacts.task_status_PATCH_rejections Toy.codec "k3y" 1000
             (fun _ _ => ret None) (fun _ _ _ _ => ret JNull) _ "t1" (Some (JObj [("status", JNum 1)])) "u1"
             _ _) _).
    all: first [left; reflexivity | vm_compute; reflexivity | discriminate].
  - refine (proj2 (proj2 (RouteFacts.task_status_PATCH_rejections Toy.codec "k3y" 1000
             (fun _ _ => ret (Some [JNull])) (fun _ _ _ _ => ret JNull) _ "t1"
             (Some (JObj [("status", JFrac 5 2)])) "u1" _ _)) [JNull] _ 5 2%positive _ _ eq_refl _).
    all: first [reflexivity | vm_compute; reflexivity | discriminate].
Defined.

Local Abbreviation tok_u1 :=
  (Jwt.enc_header Toy.codec "HS256" ++ "." ++
   Jwt.enc_payload Toy.codec (Jwt.issued (Jwt.mkClaims "u1" "a@b.c" None) 0) ++ "." ++
   Jwt.hs256 Toy.codec "k3y"
     (Jwt.enc_header Toy.codec "HS256" ++ "." ++
      Jwt.enc_payload Toy.codec (Jwt.issued (Jwt.mkClaims "u1" "a@b.c" None) 0))).

(** X20 at a member of the project posting ["hi"]. *)
Lemma comments_POST_created_witness :
  Jwt.createToken Toy.codec "k3y" 0 "u1" "a@b.c" None = Some tok_u1 /\
  status (Routes.comments_POST Toy.codec "k3y" 1000 (fun _ _ => ret (Some [JNull]))
            (fun _ _ s => ret (JStr s)) (auth_cookie tok_u1) "t1" (Some (JObj [("body", JStr "hi")])))
  = 201 /\
  exists text comment, ret (A := Json) (JStr text) = inr comment /\ text <> EmptyString.
Proof.
  split; [reflexivity|].
  assert (H : status (Routes.comments_POST Toy.codec "k3y" 1000 (fun _ _ => ret (Some [JNull]))
            (fun _ _ s => ret (JStr s)) (auth_cookie tok_u1) "t1" (Some (JObj [("body", JStr "hi")])))
              = 201) by (vm_compute; reflexivity).
  split; [exact H|].
  destruct (CommentPostFacts.comments_POST_created _ _ _ _ _ _ _ _ H)
    as (p & ups & b & text & comment & _ & _ & _ & _ & _ & Hne & Hc & _).
  exists text, comment; split; [exact Hc|exact Hne].
Defined.

(** X21 at a member of the project sending an empty comment. *)
Lemma comments_POST_body_errors_witness :
  Routes.comments_POST Toy.codec "k3y" 1000 (fun _ _ => ret (Some [JNull]))
    (fun _ _ s => ret (JStr s)) (auth_cookie tok_u1) "t1" (Some (JObj [("body", JStr "")]))
  = mkResponse 400 (JObj [("error", JStr "Validation error");
      ("details", issues_json [mkIssue "body" "Comment body is required"])]) [].
Proof.
  refine (proj1 (proj2 (CommentPostFacts.comments_POST_body_errors Toy.codec "k3y" 1000
            (fun _ _ => ret (Some [JNull])) (fun _ _ s => ret (JStr s)) (auth_cookie tok_u1) "t1"
            (Jwt.issued (Jwt.mkClaims "u1" "a@b.c" None) 0) [JNull] _ eq_refl _)) _ _).
  - vm_compute; reflexivity.
  - discriminate.
  - reflexivity.
Defined.

End ExtraWitnesses.
